(** * cloudreposlackhook: Cloud Source Repositories events to Slack

    A shallow embedding of [main.go] and the properties of its
    event-to-notification pipeline:

      ingress (startPull) -> json.Unmarshal -> processData
        -> processUpdateEvent (one call per ref update)
        -> sendSlackMessage (one call of the HTTP client).

    Go strings are byte strings and are modelled by [string]; [int] is [Z];
    [map[string]updateEvent] is an optional [gmap] ([None] is the nil map);
    an [error] result is [option error] with [None] for [nil].  Everything
    the program does to the outside (encoding a message, sending a request,
    acknowledging a queue message) is appended to a trace, and the code runs
    in a state monad over that trace.  Lines written to the process log
    ([fmt.Println], [log.Println]) are left out. *)

From Stdlib Require Import ZArith Ascii String List Lia Permutation.
From stdpp Require Import base gmap strings list.

Local Open Scope Z_scope.

(** ** Go library functions used by main.go *)

(** *** package strings *)

Module strings.

(** [strings.IndexByte]: position of the first byte [c] of [s]. *)
Fixpoint IndexByte (s : string) (c : ascii) : option nat :=
  match s with
  | EmptyString => None
  | String x s' =>
      if Ascii.eqb x c then Some 0%nat
      else match IndexByte s' c with
           | Some m => Some (S m)
           | None => None
           end
  end.

(** The slice expressions [s[:m]] and [s[m:]]. *)
Fixpoint slice_to (m : nat) (s : string) : string :=
  match m, s with
  | S m', String x s' => String x (slice_to m' s')
  | _, _ => EmptyString
  end.

Fixpoint slice_from (m : nat) (s : string) : string :=
  match m, s with
  | S m', String _ s' => slice_from m' s'
  | _, _ => s
  end.

(** [strings.Count] for a one-byte separator. *)
Fixpoint Count (s : string) (c : ascii) : nat :=
  match s with
  | EmptyString => 0%nat
  | String x s' => if Ascii.eqb x c then S (Count s' c) else Count s' c
  end.

(** The loop of [genSplit]:

      for i < n { m := Index(s, sep); if m < 0 { break }
                  a[i] = s[:m]; s = s[m+len(sep):]; i++ }
      a[i] = s; return a[:i+1]

    [n] is the number of iterations still allowed. *)
Fixpoint genSplit_loop (n : nat) (s : string) (sep : ascii) : list string :=
  match n with
  | O => [s]
  | S n' =>
      match IndexByte s sep with
      | None => [s]
      | Some m => slice_to m s :: genSplit_loop n' (slice_from (m + 1) s) sep
      end
  end.

(** [strings.SplitN(s, sep, n)] for a one-byte separator (the only call
    of main.go passes ["/"]): [n = 0] gives nil, [n < 0] all the
    substrings, [n > 0] at most [n] substrings, the last one being the
    unsplit remainder. *)
Definition SplitN (s : string) (sep : ascii) (n : Z) : list string :=
  if n =? 0 then []
  else
    let n := if n <? 0 then Z.of_nat (Count s sep) + 1 else n in
    let n := if n >? Z.of_nat (String.length s) + 1
             then Z.of_nat (String.length s) + 1 else n in
    genSplit_loop (Z.to_nat (n - 1)) s sep.

(** [strings.Split(s, sep)] is [SplitN(s, sep, -1)]. *)
Definition Split (s : string) (sep : ascii) : list string := SplitN s sep (-1).

End strings.

(** *** package fmt *)

Module fmt.

(** What [Sprintf] appends for arguments that no verb consumed. *)
Fixpoint extra (args : list string) : string :=
  match args with
  | [] => ""
  | [a] => "string=" +:+ a
  | a :: rest => "string=" +:+ a +:+ ", " +:+ extra rest
  end.

(** [fmt.Sprintf] on string operands, for the verbs main.go uses: [%s]
    writes the next operand unchanged, [%%] a percent sign, any other
    byte is copied. *)
Fixpoint Sprintf (format : string) (args : list string) : string :=
  match format with
  | EmptyString =>
      match args with
      | [] => ""
      | _ => "%!(EXTRA " +:+ extra args +:+ ")"
      end
  | String "%" (String "s" rest) =>
      match args with
      | a :: args' => a +:+ Sprintf rest args'
      | [] => "%!s(MISSING)" +:+ Sprintf rest []
      end
  | String "%" (String "%" rest) => String "%" (Sprintf rest args)
  | String c rest => String c (Sprintf rest args)
  end.

End fmt.

(** ** The data of main.go *)

(** A Go [error] value; [fmt.Errorf] and the libraries build them from a
    text. *)
Inductive error := Errorf (text : string).

(** What a library call returning [(T, error)] gives back. *)
Inductive result (A : Type) :=
| Ok (a : A)
| Err (e : error).
Arguments Ok {A} a.
Arguments Err {A} e.

(** [type updateEvent struct] *)
Record updateEvent := {
  RefName : string;
  UpdateType : string;
  OldID : string;
  NewID : string
}.

(** The anonymous struct of the field [RefUpdateEvent] of [data].  The Go
    map is [None] when nil (field absent from the JSON document). *)
Record refUpdateEvent := {
  Email : string;
  RefUpdates : option (gmap string updateEvent)
}.

(** [type data struct]; [EventTime] is a [time.Time], kept as a number. *)
Record data := {
  Name : string;
  URL : string;
  EventTime : Z;
  RefUpdateEvent : refUpdateEvent
}.

(** [type slackField struct] *)
Module Field.
Record t := {
  Title : string;
  Value : string;
  Short : bool
}.
End Field.
Abbreviation slackField := Field.t.

(** [type slackAttachment struct] *)
Module Attachment.
Record t := {
  Fallback : string;
  Color : string;
  Pretext : string;
  AuthorName : string;
  AuthorLink : string;
  AuthorIcon : string;
  Title : string;
  TitleLink : string;
  Text : string;
  Fields : list slackField;
  ImageURL : string;
  ThumbURL : string;
  Footer : string;
  FooterIcon : string;
  Timestamp : Z
}.
End Attachment.
Abbreviation slackAttachment := Attachment.t.

(** [type slackMsg struct] *)
Module Msg.
Record t := {
  Text : string;
  Attachments : list slackAttachment
}.
End Msg.
Abbreviation slackMsg := Msg.t.

(** An [*http.Request] as far as main.go fills it in, and the part of an
    [*http.Response] it reads. *)
Record request := {
  Method : string;
  Target : string;
  Body : string
}.

Record response := {
  StatusCode : Z;
  Location : string   (* resp.Header.Get("Location") *)
}.

Definition MethodPost : string := "POST".
Definition StatusOK : Z := 200.

(** ** Effects *)

(** What the program does to the outside, in the order it does it. *)
Inductive effect :=
| Encoded (message : slackMsg)   (* json.NewEncoder(&buf).Encode(message) *)
| Sent (req : request)           (* a request the client sends *)
| Acked                          (* msg.Ack() *)
| Nacked.                        (* msg.Nack() *)

Definition trace := list effect.

(** The process-wide configuration and the answers of the outside world.
    The answer of the network may depend on everything done before. *)
Record Env := {
  slackURL : string;                                  (* config.String("slack_url") *)
  json_Marshal : slackMsg -> result string;           (* encoding/json, encoder *)
  json_Unmarshal : string -> result data;             (* encoding/json, decoder *)
  url_Parse : string -> option error;                 (* net/url, inside http.NewRequest *)
  url_Resolve : string -> string -> result string;    (* net/url: a Location against a URL *)
  network : trace -> request -> result response       (* one round trip to a server *)
}.

(** A computation that appends to the trace and returns a value. *)
Definition M (A : Type) : Type := trace -> A * trace.

Definition ret {A} (a : A) : M A := fun t => (a, t).

Definition bind {A B} (m : M A) (k : A -> M B) : M B :=
  fun t => let (a, t') := m t in k a t'.

Definition emit (e : effect) : M unit := fun t => (tt, t ++ [e]).

(** A function body [defer d; body]: [d] runs when [body] has returned. *)
Definition defer {A} (d : M unit) (body : M A) : M A :=
  fun t => let (a, t') := body t in let (_, t'') := d t' in (a, t'').

Notation "'let*' x ':=' m 'in' k" := (bind m (fun x => k))
  (at level 10, x name, m at level 100, k at level 200, only parsing).

(** *** package crypto/md5 (RFC 1321) *)

Module md5.

(** uint32 arithmetic: the low 32 bits of the integer result. *)
Definition u32 (x : Z) : Z := Z.land x 0xffffffff.
Definition add32 (x y : Z) : Z := u32 (x + y).
Definition not32 (x : Z) : Z := Z.lxor x 0xffffffff.
Definition rotl32 (x s : Z) : Z :=
  u32 (Z.lor (Z.shiftl x s) (Z.shiftr x (32 - s))).

Definition F (x y z : Z) : Z := Z.lor (Z.land x y) (Z.land (not32 x) z).
Definition G (x y z : Z) : Z := Z.lor (Z.land x z) (Z.land y (not32 z)).
Definition H (x y z : Z) : Z := Z.lxor x (Z.lxor y z).
Definition I (x y z : Z) : Z := Z.lxor y (Z.lor x (not32 z)).

(** T[i] = floor(2^32 * |sin (i + 1)|). *)
Definition T : list Z :=
  [
    0xd76aa478; 0xe8c7b756; 0x242070db; 0xc1bdceee;
    0xf57c0faf; 0x4787c62a; 0xa8304613; 0xfd469501;
    0x698098d8; 0x8b44f7af; 0xffff5bb1; 0x895cd7be;
    0x6b901122; 0xfd987193; 0xa679438e; 0x49b40821;
    0xf61e2562; 0xc040b340; 0x265e5a51; 0xe9b6c7aa;
    0xd62f105d; 0x02441453; 0xd8a1e681; 0xe7d3fbc8;
    0x21e1cde6; 0xc33707d6; 0xf4d50d87; 0x455a14ed;
    0xa9e3e905; 0xfcefa3f8; 0x676f02d9; 0x8d2a4c8a;
    0xfffa3942; 0x8771f681; 0x6d9d6122; 0xfde5380c;
    0xa4beea44; 0x4bdecfa9; 0xf6bb4b60; 0xbebfbc70;
    0x289b7ec6; 0xeaa127fa; 0xd4ef3085; 0x04881d05;
    0xd9d4d039; 0xe6db99e5; 0x1fa27cf8; 0xc4ac5665;
    0xf4292244; 0x432aff97; 0xab9423a7; 0xfc93a039;
    0x655b59c3; 0x8f0ccc92; 0xffeff47d; 0x85845dd1;
    0x6fa87e4f; 0xfe2ce6e0; 0xa3014314; 0x4e0811a1;
    0xf7537e82; 0xbd3af235; 0x2ad7d2bb; 0xeb86d391
  ].

Definition shift : list Z :=
  [ 7; 12; 17; 22; 7; 12; 17; 22; 7; 12; 17; 22; 7; 12; 17; 22;
    5; 9; 14; 20; 5; 9; 14; 20; 5; 9; 14; 20; 5; 9; 14; 20;
    4; 11; 16; 23; 4; 11; 16; 23; 4; 11; 16; 23; 4; 11; 16; 23;
    6; 10; 15; 21; 6; 10; 15; 21; 6; 10; 15; 21; 6; 10; 15; 21 ].

(** The chaining value (a, b, c, d). *)
Definition digest : Type := Z * Z * Z * Z.

Definition init : digest := (0x67452301, 0xefcdab89, 0x98badcfe, 0x10325476).

(** Operation [i] (0..63) on the sixteen words [X] of a block. *)
Definition step (X : list Z) (st : digest) (i : nat) : digest :=
  let '(a, b, c, d) := st in
  let '(f, g) :=
    if (i <? 16)%nat then (F b c d, i)
    else if (i <? 32)%nat then (G b c d, ((5 * i + 1) mod 16)%nat)
    else if (i <? 48)%nat then (H b c d, ((3 * i + 5) mod 16)%nat)
    else (I b c d, ((7 * i) mod 16)%nat) in
  let f := add32 (add32 (add32 f a) (nth i T 0)) (nth g X 0) in
  (d, add32 b (rotl32 f (nth i shift 0)), b, c).

Definition block (st : digest) (X : list Z) : digest :=
  let '(a0, b0, c0, d0) := st in
  let '(a, b, c, d) := fold_left (step X) (seq 0 64) st in
  (add32 a0 a, add32 b0 b, add32 c0 c, add32 d0 d).

(** Little-endian packing of bytes into 32-bit words and back. *)
Fixpoint words (bytes : list Z) : list Z :=
  match bytes with
  | b0 :: b1 :: b2 :: b3 :: rest =>
      Z.lor b0 (Z.lor (Z.shiftl b1 8) (Z.lor (Z.shiftl b2 16) (Z.shiftl b3 24)))
      :: words rest
  | _ => []
  end.

Definition le_bytes (nbytes : nat) (x : Z) : list Z :=
  map (fun k => Z.land (Z.shiftr x (8 * Z.of_nat k)) 0xff) (seq 0 nbytes).

(** The message followed by 0x80, zeros up to 56 modulo 64, and the bit
    length in eight bytes. *)
Definition pad (msg : list Z) : list Z :=
  let len := Z.of_nat (length msg) in
  msg ++ [0x80] ++ repeat 0 (Z.to_nat ((55 - len) mod 64))
      ++ le_bytes 8 (Z.land (8 * len) 0xffffffffffffffff).

(** The first [n] blocks of 64 bytes. *)
Fixpoint blocks (n : nat) (bytes : list Z) : list (list Z) :=
  match n with
  | O => []
  | S n' => firstn 64 bytes :: blocks n' (skipn 64 bytes)
  end.

Definition bytes_of_string (s : string) : list Z :=
  map (fun c => Z.of_N (N_of_ascii c)) (list_ascii_of_string s).

(** [md5.Sum(data)]: the sixteen bytes of the checksum. *)
Definition Sum (data : string) : list Z :=
  let padded := pad (bytes_of_string data) in
  let '(a, b, c, d) :=
    fold_left (fun st blk => block st (words blk))
              (blocks (length padded / 64) padded) init in
  le_bytes 4 a ++ le_bytes 4 b ++ le_bytes 4 c ++ le_bytes 4 d.

End md5.

(** *** package encoding/hex *)

Module hex.

Definition hextable : list ascii := list_ascii_of_string "0123456789abcdef".

(** [hextable[v]] *)
Definition digit (v : Z) : ascii := nth (Z.to_nat v) hextable "0"%char.

(** [hex.EncodeToString]: two digits per byte, [hextable[v>>4]] then
    [hextable[v&0x0f]]. *)
Fixpoint EncodeToString (src : list Z) : string :=
  match src with
  | [] => ""
  | v :: rest =>
      String (digit (Z.shiftr v 4)) (String (digit (Z.land v 0x0f)) (EncodeToString rest))
  end.

End hex.

(** ** main.go *)

(** [var updateTypeColor = map[string]string{...}] *)
Definition updateTypeColor : gmap string string :=
  list_to_map
    [ ("CREATE", "#2e77ff");
      ("UPDATE_FAST_FORWARD", "#60ff55");
      ("UPDATE_NON_FAST_FORWARD", "#ff2e2e");
      ("DELETE", "#ff6d2e") ].

(** [func gravatarURL(email string) string] *)
Definition gravatarURL (email : string) : string :=
  if String.eqb email "" then ""
  else
    let s := md5.Sum email in
    "http://gravatar.com/avatar/" +:+ hex.EncodeToString s.

(** The entries a [range] over a Go map visits: none for the nil map. *)
Definition entries (m : option (gmap string updateEvent)) : list (string * updateEvent) :=
  map_to_list (default ∅ m).

(** A [range] over a map visits every entry once, in an order the language
    leaves open: [order] is one of the possible iterations of [m]. *)
Definition iteration (m : option (gmap string updateEvent))
    (order : list (string * updateEvent)) : Prop :=
  order ≡ₚ entries m.

Section Pipeline.

Context (env : Env).

(** [json.NewEncoder(&buf).Encode(message)] *)
Definition json_Encode (message : slackMsg) : M (result string) :=
  fun t => (json_Marshal env message, t ++ [Encoded message]).

(** [http.NewRequest(method, url, body)]: fails when the URL does not
    parse (the method main.go passes is always valid). *)
Definition http_NewRequest (method url body : string) : result request :=
  match url_Parse env url with
  | Some err => Err err
  | None => Ok {| Method := method; Target := url; Body := body |}
  end.

(** One round trip of the client's transport: the request goes out and
    the server's answer, or the error of the network, comes back.  A
    timeout of the client is one of these errors. *)
Definition round_trip (req : request) : M (result response) :=
  fun t => (network env t req, t ++ [Sent req]).

(** [redirectBehavior] of net/http for a request whose body can be sent
    again (the body main.go passes is a [*bytes.Buffer]): the method of
    the next request, whether to redirect, whether to send the body. *)
Definition redirectBehavior (reqMethod : string) (resp : response)
    : string * bool * bool :=
  if (StatusCode resp =? 301) || (StatusCode resp =? 302) || (StatusCode resp =? 303)
  then
    (if String.eqb reqMethod "GET" || String.eqb reqMethod "HEAD"
     then reqMethod else "GET", true, false)
  else if (StatusCode resp =? 307) || (StatusCode resp =? 308)
  then (reqMethod, negb (String.eqb (Location resp) ""), true)
  else ("", false, false).

(** The loop of [Client.do] in net/http with the default redirect policy, for
    the first request [ireq] and the current one [req]; [n] further
    requests may follow [req], the policy stopping at ten in all.  A
    redirect without Location is an error, as in the Go releases the
    module was written for (go 1.12 in go.mod); an error of net/http is
    given by its text, without the URL and the status it is printed with. *)
Fixpoint do_loop (n : nat) (ireq req : request) : M (result response) :=
  let* r := round_trip req in
  match r with
  | Err err => ret (Err err)
  | Ok resp =>
      let '(redirectMethod, shouldRedirect, includeBody) :=
        redirectBehavior (Method req) resp in
      if negb shouldRedirect then ret (Ok resp)
      else if String.eqb (Location resp) ""
      then ret (Err (Errorf "response missing Location header"))
      else
        match url_Resolve env (Target req) (Location resp) with
        | Err err => ret (Err err)
        | Ok u =>
            match n with
            | O => ret (Err (Errorf "stopped after 10 redirects"))
            | S n' =>
                do_loop n' ireq
                  {| Method := redirectMethod; Target := u;
                     Body := if includeBody then Body ireq else "" |}
            end
        end
  end.

(** [client.Do(req)] on [var client = http.Client{Timeout: 5 * time.Second}]:
    no [CheckRedirect] is set, so redirects are followed. *)
Definition client_Do (req : request) : M (result response) :=
  do_loop 9 req req.

(** [func sendSlackMessage(message *slackMsg) error]; reading and closing
    the response body leaves nothing to observe. *)
Definition sendSlackMessage (message : slackMsg) : M (option error) :=
  if String.eqb (slackURL env) "" then ret None
  else
    let* r := json_Encode message in
    match r with
    | Err err => ret (Some err)
    | Ok buf =>
        match http_NewRequest MethodPost (slackURL env) buf with
        | Err err => ret (Some err)
        | Ok req =>
            let* r := client_Do req in
            match r with
            | Err err => ret (Some err)
            | Ok resp =>
                if negb (StatusCode resp =? StatusOK)
                then ret (Some (Errorf "response not ok"))
                else ret None
            end
        end
    end.

(** [func processUpdateEvent(d *data, ev *updateEvent) error] *)
Definition processUpdateEvent (d : data) (ev : updateEvent) : M (option error) :=
  let color := updateTypeColor !!! UpdateType ev in
  if String.eqb color "" then ret None
  else
    let xs := strings.SplitN (Name d) "/" 4 in
    if negb (length xs =? 4)%nat then ret None
    else
      let projectID := nth 1 xs "" in
      let repoName := nth 3 xs "" in
      let commitURL :=
        fmt.Sprintf "https://source.cloud.google.com/%s/%s/+/%s"
                    [projectID; repoName; NewID ev] in
      sendSlackMessage
        {| Msg.Text := "";
           Msg.Attachments :=
             [ {| Attachment.Fallback := fmt.Sprintf "%s:%s" [Name d; RefName ev];
                  Attachment.Color := color;
                  Attachment.Pretext := "";
                  Attachment.AuthorName := Email (RefUpdateEvent d);
                  Attachment.AuthorLink := "";
                  Attachment.AuthorIcon := gravatarURL (Email (RefUpdateEvent d));
                  Attachment.Title := "Cloud Repo";
                  Attachment.TitleLink := commitURL;
                  Attachment.Text := "";
                  Attachment.Fields :=
                    [ {| Field.Title := "Repository"; Field.Value := Name d;
                         Field.Short := false |};
                      {| Field.Title := "Branch"; Field.Value := RefName ev;
                         Field.Short := false |};
                      {| Field.Title := "Email"; Field.Value := Email (RefUpdateEvent d);
                         Field.Short := false |};
                      {| Field.Title := "Update Type"; Field.Value := UpdateType ev;
                         Field.Short := false |};
                      {| Field.Title := "Commit SHA"; Field.Value := NewID ev;
                         Field.Short := false |} ];
                  Attachment.ImageURL := "";
                  Attachment.ThumbURL := "";
                  Attachment.Footer := "";
                  Attachment.FooterIcon := "";
                  Attachment.Timestamp := 0 |} ] |}.

(** The loop of [processData] over the entries in the order the [range]
    visits them. *)
Fixpoint range_RefUpdates (d : data) (order : list (string * updateEvent))
    : M (option error) :=
  match order with
  | [] => ret None
  | (_, ev) :: rest =>
      let* err := processUpdateEvent d ev in
      match err with
      | Some e => ret (Some e)
      | None => range_RefUpdates d rest
      end
  end.

(** [func processData(d *data) error], run with the iteration [order] of
    [d.RefUpdateEvent.RefUpdates]. *)
Definition processData (d : data) (order : list (string * updateEvent))
    : M (option error) :=
  range_RefUpdates d order.

(** The callback [startPull] passes to [Receive], on a message with
    payload [msgData]; [order] is the iteration of the decoded map. *)
Definition startPull_callback (msgData : string)
    (order : list (string * updateEvent)) : M unit :=
  defer (emit Acked)
    (match json_Unmarshal env msgData with
     | Err _ => ret tt
     | Ok d =>
         let* err := processData d order in
         match err with
         | Some _ => emit Nacked
         | None => ret tt
         end
     end).

End Pipeline.

(** ** Reading a trace *)

(** The requests sent to the webhook, oldest first. *)
Fixpoint sent_requests (t : trace) : list request :=
  match t with
  | [] => []
  | Sent req :: rest => req :: sent_requests rest
  | _ :: rest => sent_requests rest
  end.

(** The calls of [msg.Ack] and [msg.Nack], oldest first. *)
Fixpoint decisions (t : trace) : trace :=
  match t with
  | [] => []
  | Acked :: rest => Acked :: decisions rest
  | Nacked :: rest => Nacked :: decisions rest
  | _ :: rest => decisions rest
  end.

(** The request [sendSlackMessage] builds from an encoded message. *)
Definition post (env : Env) (buf : string) : request :=
  {| Method := MethodPost; Target := slackURL env; Body := buf |}.

(** The messages handed to the encoder, oldest first. *)
Fixpoint encoded_messages (t : trace) : list slackMsg :=
  match t with
  | [] => []
  | Encoded message :: rest => message :: encoded_messages rest
  | _ :: rest => encoded_messages rest
  end.

(** What [sendSlackMessage] makes of the result of [client.Do]. *)
Definition verdict (r : result response) : option error :=
  match r with
  | Err err => Some err
  | Ok resp =>
      if StatusCode resp =? 200 then None else Some (Errorf "response not ok")
  end.

(** Whether the client follows the answer [resp] to a request of method
    [reqMethod]. *)
Definition shouldRedirect (reqMethod : string) (resp : response) : bool :=
  (redirectBehavior reqMethod resp).1.2.

(** What the answer of the network to the last request sent makes of the
    result [r] of [client.Do]: an error of the network is returned, an
    answer that is no redirect is returned, and a redirect that is not
    followed (no Location, a Location that does not resolve, the tenth
    request) is an error. *)
Definition settles (answer : result response) (last : request)
    (r : result response) : Prop :=
  match answer with
  | Err err => r = Err err
  | Ok resp =>
      if shouldRedirect (Method last) resp then exists err, r = Err err
      else r = Ok resp
  end.

(** The ways a delivery to a configured webhook can go: what
    [sendSlackMessage] returns and what it appends to the trace [t].  When
    the client is called, it sends the requests [sent] and then [last],
    ten at most, the first being the POST of the encoded message. *)
Inductive delivery (env : Env) (message : slackMsg) (t : trace)
  : option error -> trace -> Prop :=
| encode_failed err :
    json_Marshal env message = Err err ->
    delivery env message t (Some err) [Encoded message]
| request_failed buf err :
    json_Marshal env message = Ok buf ->
    url_Parse env (slackURL env) = Some err ->
    delivery env message t (Some err) [Encoded message]
| attempted buf sent last r :
    json_Marshal env message = Ok buf ->
    url_Parse env (slackURL env) = None ->
    (exists rest, sent ++ [last] = post env buf :: rest) ->
    (length sent <= 9)%nat ->
    client_Do env (post env buf) (t ++ [Encoded message])
      = (r, (t ++ [Encoded message]) ++ map Sent (sent ++ [last])) ->
    settles (network env ((t ++ [Encoded message]) ++ map Sent sent) last) last r ->
    delivery env message t (verdict r) (Encoded message :: map Sent (sent ++ [last])).

(** The classification table as the specification lists it. *)
Definition documented_colors : list (string * string) :=
  [ ("CREATE", "#2e77ff");
    ("UPDATE_FAST_FORWARD", "#60ff55");
    ("UPDATE_NON_FAST_FORWARD", "#ff2e2e");
    ("DELETE", "#ff6d2e") ].

(** ** Sample inputs *)

Module Sample.

(** An encoder that never fails (as on [slackMsg], which holds only
    strings, booleans and integers); the body it writes stands for the
    JSON text. *)
Definition marshal (message : slackMsg) : result string :=
  Ok (String.concat "," (map Attachment.Fallback (Msg.Attachments message))).

Definition sent (t : trace) : nat :=
  length (List.filter (fun e => match e with Sent _ => true | _ => false end) t).

(** A webhook that answers 200 to the first [ok] requests and 500 to the
    later ones. *)
Definition webhook (ok : nat) (t : trace) (req : request) : result response :=
  if (sent t <? ok)%nat then Ok {| StatusCode := 200; Location := "" |}
  else Ok {| StatusCode := 500; Location := "" |}.

Definition main_push : updateEvent :=
  {| RefName := "refs/heads/main"; UpdateType := "CREATE";
     OldID := ""; NewID := "abc123" |}.

Definition dev_push : updateEvent :=
  {| RefName := "refs/heads/dev"; UpdateType := "UPDATE_FAST_FORWARD";
     OldID := "abc123"; NewID := "def456" |}.

Definition unknown_push : updateEvent :=
  {| RefName := "refs/heads/main"; UpdateType := "UNKNOWN";
     OldID := ""; NewID := "abc123" |}.

Definition envelope (name : string) (m : option (gmap string updateEvent)) : data :=
  {| Name := name; URL := ""; EventTime := 0;
     RefUpdateEvent := {| Email := "a@b.com"; RefUpdates := m |} |}.

(** The envelope of the first end-to-end scenario. *)
Definition one : data :=
  envelope "projects/p1/repos/r1" (Some {[ "x" := main_push ]}).

Definition two : data :=
  envelope "projects/p1/repos/r1" (Some {[ "x" := main_push; "y" := dev_push ]}).

Definition tag_push : updateEvent :=
  {| RefName := "refs/tags/v1"; UpdateType := "DELETE";
     OldID := "def456"; NewID := "" |}.

Definition three : data :=
  envelope "projects/p1/repos/r1"
    (Some {[ "x" := main_push; "y" := dev_push; "z" := tag_push ]}).

(** A decoder for three payloads; everything else is malformed. *)
Definition unmarshal (payload : string) : result data :=
  if String.eqb payload "one" then Ok one
  else if String.eqb payload "two" then Ok two
  else Err (Errorf "invalid character").

Definition env (url : string) (ok : nat) : Env :=
  {| slackURL := url;
     json_Marshal := marshal;
     json_Unmarshal := unmarshal;
     url_Parse := fun u => if String.eqb u "://" then Some (Errorf "missing protocol scheme") else None;
     url_Resolve := fun _ ref => Ok ref;
     network := webhook ok |}.

Definition hook : string := "https://hooks.slack.com/services/T/B/X".

End Sample.

(** ** The push adapter *)

(** What the handler of [startPush] reads of an [*http.Request]:
    [r.Method], [r.Header.Get("Content-Type")] and [r.Body]. *)
Record pushRequest := {
  ReqMethod : string;
  ContentType : string;
  ReqBody : string
}.

(** The anonymous struct the handler decodes the body into. *)
Record pushMessage := {
  Data : string;
  ID : string
}.

Record pushWrapper := {
  Message : pushMessage;
  Subscription : string
}.

(** An [http.ResponseWriter]: whether a header was written, and its status
    code.  A second [WriteHeader] changes nothing. *)
Record ResponseWriter := {
  wroteHeader : bool;
  status : Z
}.

Definition StatusNoContent : Z := 204.

Definition WriteHeader (code : Z) (w : ResponseWriter) : ResponseWriter :=
  if wroteHeader w then w else {| wroteHeader := true; status := code |}.

(** The writer a handler is called with. *)
Definition unwritten : ResponseWriter := {| wroteHeader := false; status := 0 |}.

(** The two library calls of the handler: [mime.ParseMediaType], of which
    the handler keeps the media type only (empty when there is none), and
    the decoding of the wrapper by [json.NewDecoder(r.Body).Decode]. *)
Record PushEnv := {
  mime_ParseMediaType : string -> string;
  json_Decode : string -> result pushWrapper
}.

(** The handler [startPush] serves, on request [r] with response writer
    [w]; [order] is the iteration of the decoded map. *)
Definition startPush_handler (penv : PushEnv) (env : Env) (r : pushRequest)
    (order : list (string * updateEvent)) (w : ResponseWriter) : M ResponseWriter :=
  let w := WriteHeader StatusNoContent w in
  if negb (String.eqb (ReqMethod r) MethodPost) then ret w
  else
    let mt := mime_ParseMediaType penv (ContentType r) in
    if negb (String.eqb mt "application/json") then ret w
    else
      match json_Decode penv (ReqBody r) with
      | Err _ => ret w
      | Ok msg =>
          if String.eqb (Subscription msg) "" then ret w
          else
            match json_Unmarshal env (Data (Message msg)) with
            | Err _ => ret w
            | Ok d =>
                let* _ := processData env d order in
                ret w
            end
      end.

(** A ref update whose classification is in [updateTypeColor]. *)
Definition listed (x : string * updateEvent) : bool :=
  negb (String.eqb (updateTypeColor !!! UpdateType x.2) "").

(** A request as the client sends them for [sendSlackMessage]: a POST or,
    after a redirect, a GET, with no body or with the encoding of a message
    encoded within [l]. *)
Definition posted_by (env : Env) (l : trace) (r : request) : Prop :=
  (Method r = "POST" \/ Method r = "GET") /\
  (Body r = "" \/
   exists message, Encoded message ∈ l /\ json_Marshal env message = Ok (Body r)).

(** Webhooks that redirect. *)
Module SampleRedirect.

Definition moved : string := "https://hooks.slack.com/moved".

(** Answers the first request with [code] and a Location, the later ones
    with 200. *)
Definition webhook (code : Z) (t : trace) (req : request) : result response :=
  if (Sample.sent t =? 0)%nat then Ok {| StatusCode := code; Location := moved |}
  else Ok {| StatusCode := 200; Location := "" |}.

(** Redirects every request to where it came from. *)
Definition circle (t : trace) (req : request) : result response :=
  Ok {| StatusCode := 307; Location := Target req |}.

Definition env (server : trace -> request -> result response) : Env :=
  {| slackURL := Sample.hook;
     json_Marshal := Sample.marshal;
     json_Unmarshal := Sample.unmarshal;
     url_Parse := fun _ => None;
     url_Resolve := fun _ ref => Ok ref;
     network := server |}.


End SampleRedirect.

Module SamplePush.

(** Keeps the text before the first semicolon as the media type. *)
Definition media_type (header : string) : string :=
  match strings.IndexByte header ";" with
  | Some m => strings.slice_to m header
  | None => header
  end.

Definition decode (body : string) : result pushWrapper :=
  if String.eqb body "push-one"
  then Ok {| Message := {| Data := "one"; ID := "1" |};
             Subscription := "projects/p1/subscriptions/s1" |}
  else if String.eqb body "push-anonymous"
  then Ok {| Message := {| Data := "one"; ID := "2" |}; Subscription := "" |}
  else Err (Errorf "unexpected end of JSON input").

Definition penv : PushEnv :=
  {| mime_ParseMediaType := media_type; json_Decode := decode |}.

Definition request (body : string) : pushRequest :=
  {| ReqMethod := "POST"; ContentType := "application/json; charset=utf-8";
     ReqBody := body |}.

End SamplePush.

(** ** Properties of the library functions *)

Lemma append_empty_r (s : string) : s +:+ "" = s.
Proof.
  induction s as [|c s IH]; [reflexivity|].
  change (String c (s +:+ "") = String c s). by rewrite IH.
Qed.

Lemma append_empty_l (s : string) : "" +:+ s = s.
Proof. reflexivity. Qed.

Lemma append_String (c : ascii) (s r : string) :
  String c s +:+ r = String c (s +:+ r).
Proof. reflexivity. Qed.

Lemma length_append (s r : string) :
  String.length (s +:+ r) = (String.length s + String.length r)%nat.
Proof.
  induction s as [|c s IH]; [reflexivity|].
  rewrite append_String. cbn [String.length]. by rewrite IH.
Qed.

Section Split.

Import strings.
Context (sep : ascii).

Lemma Count_le_length (s : string) : (Count s sep <= String.length s)%nat.
Proof.
  induction s as [|x s IH]; cbn; [lia|].
  destruct (Ascii.eqb x sep); lia.
Qed.

Lemma IndexByte_None (s : string) :
  IndexByte s sep = None -> Count s sep = 0%nat.
Proof.
  induction s as [|x s IH]; cbn; [done|].
  destruct (Ascii.eqb x sep); [done|].
  destruct (IndexByte s sep); [done|]. auto.
Qed.

Lemma IndexByte_Some (s : string) (m : nat) :
  IndexByte s sep = Some m ->
  Count s sep = S (Count (slice_from (m + 1) s) sep).
Proof.
  revert m. induction s as [|x s IH]; intros m; cbn; [done|].
  destruct (Ascii.eqb x sep) eqn:E.
  - intros [= <-]. reflexivity.
  - destruct (IndexByte s sep) as [k|]; [|done].
    intros [= <-]. cbn. by apply IH.
Qed.

(** The loop stops at the separator it is allowed to reach last. *)
Lemma length_genSplit_loop (n : nat) (s : string) :
  length (genSplit_loop n s sep) = S (Nat.min n (Count s sep)).
Proof.
  revert s. induction n as [|n IH]; intros s; cbn [genSplit_loop]; [done|].
  destruct (IndexByte s sep) as [m|] eqn:E.
  - cbn [length]. rewrite IH, (IndexByte_Some s m E). reflexivity.
  - by rewrite (IndexByte_None s E), Nat.min_0_r.
Qed.

Lemma length_SplitN (s : string) (n : Z) :
  0 < n ->
  length (SplitN s sep n) = S (Nat.min (Z.to_nat (n - 1)) (Count s sep)).
Proof.
  intros Hn. unfold SplitN.
  destruct (Z.eqb_spec n 0) as [|_]; [lia|].
  destruct (Z.ltb_spec n 0) as [|_]; [lia|].
  rewrite length_genSplit_loop. pose proof (Count_le_length s).
  destruct (n >? Z.of_nat (String.length s) + 1) eqn:E; lia.
Qed.

Lemma length_Split (s : string) : length (Split s sep) = S (Count s sep).
Proof.
  unfold Split, SplitN. cbn [Z.eqb Z.ltb Z.compare].
  rewrite length_genSplit_loop. pose proof (Count_le_length s).
  destruct (_ >? _) eqn:E; lia.
Qed.

(** With a limit [n > 0], [SplitN] yields [n] substrings when the string
    has at least [n] segments, and all the segments otherwise. *)
Lemma length_SplitN_Split (s : string) (n : Z) :
  0 < n ->
  length (SplitN s sep n) = Nat.min (Z.to_nat n) (length (Split s sep)).
Proof.
  intros Hn. rewrite length_SplitN, length_Split by done. lia.
Qed.

Lemma IndexByte_append (a r : string) :
  Count a sep = 0%nat -> IndexByte (a +:+ String sep r) sep = Some (String.length a).
Proof.
  induction a as [|x a IH]; rewrite ?append_String, ?append_empty_l; cbn.
  - by rewrite Ascii.eqb_refl.
  - destruct (Ascii.eqb x sep); [done|]. intros H. by rewrite (IH H).
Qed.

Lemma slice_to_append (a r : string) : slice_to (String.length a) (a +:+ r) = a.
Proof.
  induction a as [|x a IH]; rewrite ?append_String, ?append_empty_l; cbn; [by destruct r|].
  by rewrite IH.
Qed.

Lemma slice_from_append (a r : string) :
  slice_from (String.length a + 1) (a +:+ String sep r) = r.
Proof. induction a as [|x a IH]; rewrite ?append_String, ?append_empty_l; cbn; done. Qed.

Lemma genSplit_loop_cons (n : nat) (a r : string) :
  Count a sep = 0%nat ->
  genSplit_loop (S n) (a +:+ String sep r) sep = a :: genSplit_loop n r sep.
Proof.
  intros H. cbn [genSplit_loop].
  by rewrite (IndexByte_append a r H), slice_to_append, slice_from_append.
Qed.

End Split.

(** A name [a/b/c/r] whose first three segments hold no slash is cut into
    exactly these four parts by [SplitN(name, "/", 4)]: the fourth part is
    the whole remainder, whatever it contains. *)
Lemma SplitN_4_parts (a b c r : string) :
  strings.Count a "/" = 0%nat -> strings.Count b "/" = 0%nat ->
  strings.Count c "/" = 0%nat ->
  strings.SplitN (a +:+ "/" +:+ b +:+ "/" +:+ c +:+ "/" +:+ r) "/" 4 = [a; b; c; r].
Proof.
  intros Ha Hb Hc. unfold strings.SplitN. cbn [Z.eqb Z.ltb Z.compare].
  assert ((4 >? Z.of_nat (String.length
            (a +:+ "/" +:+ b +:+ "/" +:+ c +:+ "/" +:+ r)) + 1) = false) as ->.
  { rewrite Z.gtb_ltb. apply Z.ltb_ge.
    rewrite !length_append. cbn [String.length]. lia. }
  change (Z.to_nat (4 - 1)) with 3%nat.
  assert (forall x, "/" +:+ x = String "/" x) as E by reflexivity.
  rewrite !E, !genSplit_loop_cons by done. reflexivity.
Qed.

(** ** Reading a trace: lemmas *)

Lemma sent_requests_app (t l : trace) :
  sent_requests (t ++ l) = sent_requests t ++ sent_requests l.
Proof.
  induction t as [|[] t IH]; cbn; rewrite ?IH; reflexivity.
Qed.

Lemma decisions_app (t l : trace) : decisions (t ++ l) = decisions t ++ decisions l.
Proof.
  induction t as [|[] t IH]; cbn; rewrite ?IH; reflexivity.
Qed.

(** ** The delivery client *)

Lemma sent_requests_Sent (l : list request) : sent_requests (map Sent l) = l.
Proof. induction l as [|r l IH]; cbn; by rewrite ?IH. Qed.

Lemma decisions_Sent (l : list request) : decisions (map Sent l) = [].
Proof. induction l as [|r l IH]; cbn; done. Qed.


Section Delivery.

Context (env : Env).

(** One turn of the loop. *)
Lemma do_loop_unfold (n : nat) (ireq req : request) (t : trace) :
  do_loop env n ireq req t =
    match network env t req with
    | Err err => (Err err, t ++ [Sent req])
    | Ok resp =>
        let '(redirectMethod, follow, includeBody) :=
          redirectBehavior (Method req) resp in
        if follow then
          if String.eqb (Location resp) ""
          then (Err (Errorf "response missing Location header"), t ++ [Sent req])
          else
            match url_Resolve env (Target req) (Location resp) with
            | Err err => (Err err, t ++ [Sent req])
            | Ok u =>
                match n with
                | O => (Err (Errorf "stopped after 10 redirects"), t ++ [Sent req])
                | S n' =>
                    do_loop env n' ireq
                      {| Method := redirectMethod; Target := u;
                         Body := if includeBody then Body ireq else "" |}
                      (t ++ [Sent req])
                end
            end
        else (Ok resp, t ++ [Sent req])
    end.
Proof.
  destruct n; cbn [do_loop]; unfold bind, round_trip, ret;
    destruct (network env t req) as [resp|e]; try done;
    destruct (redirectBehavior (Method req) resp) as [[m [|]] ib]; cbn [negb]; try done;
    destruct (String.eqb (Location resp) ""); try done;
    by destruct (url_Resolve env (Target req) (Location resp)).
Qed.

(** The client sends [req], then what the redirects ask for, [n] further
    requests at most, and the answer to the last request it sent settles
    what it returns. *)
Lemma do_loop_spec (n : nat) (ireq req : request) (t : trace) :
  exists sent last,
    (do_loop env n ireq req t).2 = t ++ map Sent (sent ++ [last]) /\
    (exists rest, sent ++ [last] = req :: rest) /\
    (length sent <= n)%nat /\
    settles (network env (t ++ map Sent sent) last) last (do_loop env n ireq req t).1.
Proof.
  revert req t. induction n as [|n IH]; intros req t; rewrite do_loop_unfold.
  all: destruct (network env t req) as [resp|e] eqn:Hnet.
  all: try destruct (redirectBehavior (Method req) resp) as [[m [|]] ib] eqn:Hrb.
  all: try destruct (String.eqb (Location resp) "").
  all: try destruct (url_Resolve env (Target req) (Location resp)) as [u|e].
  all: try (exists [], req; cbn [app map length fst snd];
            rewrite app_nil_r, Hnet; unfold settles, shouldRedirect; rewrite ?Hrb;
            cbn [fst snd];
            split; [done|]; split; [by exists []|]; split; [lia|];
            first [done|by eexists]).
  destruct (IH {| Method := m; Target := u;
                  Body := if ib then Body ireq else "" |} (t ++ [Sent req]))
    as (sent & last & Htr & _ & Hlen & Hset).
  exists (req :: sent), last. rewrite Htr. cbn [app map length].
  rewrite <- app_assoc. cbn [app].
  repeat split; [by eexists|lia|].
  by rewrite <- app_assoc in Hset.
Qed.

Lemma sendSlackMessage_off (message : slackMsg) (t : trace) :
  slackURL env = "" -> sendSlackMessage env message t = (None, t).
Proof. intros E. unfold sendSlackMessage, ret. by rewrite E. Qed.

Lemma sendSlackMessage_on (message : slackMsg) (t : trace) :
  slackURL env <> "" ->
  exists err l,
    sendSlackMessage env message t = (err, t ++ l) /\ delivery env message t err l.
Proof.
  intros Hurl. unfold sendSlackMessage, bind, ret, json_Encode, http_NewRequest.
  destruct (String.eqb_spec (slackURL env) "") as [|_]; [done|].
  destruct (json_Marshal env message) as [buf|err] eqn:Hm.
  - destruct (url_Parse env (slackURL env)) as [err|] eqn:Hp.
    + exists (Some err), [Encoded message]. split; [done|]. by eapply request_failed.
    + change {| Method := MethodPost; Target := slackURL env; Body := buf |}
        with (post env buf).
      destruct (do_loop_spec 9 (post env buf) (post env buf) (t ++ [Encoded message]))
        as (sent & last & Htr & Hhd & Hlen & Hset).
      fold (client_Do env (post env buf)) in Htr, Hset.
      destruct (client_Do env (post env buf) (t ++ [Encoded message]))
        as [r t'] eqn:Hdo.
      cbn [fst snd] in Htr, Hset. subst t'.
      exists (verdict r), (Encoded message :: map Sent (sent ++ [last])). split.
      * rewrite <- app_assoc. cbn [app]. unfold verdict, StatusOK.
        destruct r as [resp|e]; [|done]. by destruct (StatusCode resp =? 200).
      * by eapply attempted.
  - exists (Some err), [Encoded message]. split; [done|]. by eapply encode_failed.
Qed.

(** Whatever the configuration, a delivery only appends to the trace,
    and what it appends holds no call of [Ack] or [Nack]. *)
Lemma sendSlackMessage_appends (message : slackMsg) (t : trace) :
  exists l, (sendSlackMessage env message t).2 = t ++ l /\ decisions l = [].
Proof.
  destruct (String.eqb_spec (slackURL env) "") as [E|E].
  - exists []. by rewrite (sendSlackMessage_off message t E), app_nil_r.
  - destruct (sendSlackMessage_on message t E) as (err & l & -> & H).
    exists l. split; [done|]. destruct H; cbn [decisions]; by rewrite ?decisions_Sent.
Qed.

End Delivery.

(** ** The mapper and the loop over the ref updates *)

Section Mapper.

Context (env : Env).

Ltac run_map := unfold processUpdateEvent, ret.

Lemma processUpdateEvent_unlisted (d : data) (ev : updateEvent) (t : trace) :
  updateTypeColor !!! UpdateType ev = "" ->
  processUpdateEvent env d ev t = (None, t).
Proof. intros E. run_map. by rewrite E. Qed.

Lemma processUpdateEvent_short (d : data) (ev : updateEvent) (t : trace) :
  length (strings.SplitN (Name d) "/" 4) <> 4%nat ->
  processUpdateEvent env d ev t = (None, t).
Proof.
  intros E. run_map.
  destruct (String.eqb _ ""); [done|].
  by destruct (Nat.eqb_spec (length (strings.SplitN (Name d) "/" 4)) 4%nat).
Qed.

(** When neither test skips, one attachment is handed to
    [sendSlackMessage]; its fields are read off the struct literal. *)
Lemma processUpdateEvent_sends (d : data) (ev : updateEvent) :
  updateTypeColor !!! UpdateType ev <> "" ->
  length (strings.SplitN (Name d) "/" 4) = 4%nat ->
  exists a : slackAttachment,
    (forall t, processUpdateEvent env d ev t =
               sendSlackMessage env {| Msg.Text := ""; Msg.Attachments := [a] |} t) /\
    Attachment.Fallback a = fmt.Sprintf "%s:%s" [Name d; RefName ev] /\
    Attachment.Color a = updateTypeColor !!! UpdateType ev /\
    Attachment.Title a = "Cloud Repo" /\
    Attachment.TitleLink a =
      fmt.Sprintf "https://source.cloud.google.com/%s/%s/+/%s"
        [nth 1 (strings.SplitN (Name d) "/" 4) "";
         nth 3 (strings.SplitN (Name d) "/" 4) ""; NewID ev] /\
    Attachment.AuthorName a = Email (RefUpdateEvent d) /\
    Attachment.AuthorIcon a = gravatarURL (Email (RefUpdateEvent d)) /\
    Attachment.Fields a =
      [ {| Field.Title := "Repository"; Field.Value := Name d; Field.Short := false |};
        {| Field.Title := "Branch"; Field.Value := RefName ev; Field.Short := false |};
        {| Field.Title := "Email"; Field.Value := Email (RefUpdateEvent d);
           Field.Short := false |};
        {| Field.Title := "Update Type"; Field.Value := UpdateType ev;
           Field.Short := false |};
        {| Field.Title := "Commit SHA"; Field.Value := NewID ev; Field.Short := false |} ].
Proof.
  intros Hc Hn. eexists. split.
  { intros t. run_map.
    destruct (String.eqb_spec (updateTypeColor !!! UpdateType ev) "") as [|_]; [done|].
    rewrite Hn. cbn [Nat.eqb negb]. reflexivity. }
  repeat split.
Qed.

(** Every run of the mapper either skips or is one delivery. *)
Lemma processUpdateEvent_cases (d : data) (ev : updateEvent) (t : trace) :
  processUpdateEvent env d ev t = (None, t) \/
  exists message, processUpdateEvent env d ev t = sendSlackMessage env message t.
Proof.
  destruct (String.eqb_spec (updateTypeColor !!! UpdateType ev) "") as [E|E].
  { left. by apply processUpdateEvent_unlisted. }
  destruct (Nat.eq_dec (length (strings.SplitN (Name d) "/" 4)) 4%nat) as [E'|E'].
  2: { left. by apply processUpdateEvent_short. }
  destruct (processUpdateEvent_sends d ev E E') as (a & H & _). right. eauto.
Qed.

Lemma processUpdateEvent_appends (d : data) (ev : updateEvent) (t : trace) :
  exists l, (processUpdateEvent env d ev t).2 = t ++ l /\ decisions l = [].
Proof.
  destruct (processUpdateEvent_cases d ev t) as [->|[m ->]].
  - exists []. by rewrite app_nil_r.
  - apply sendSlackMessage_appends.
Qed.

(** The loop, one step at a time. *)
Lemma range_RefUpdates_cons (d : data) (k : string) (ev : updateEvent)
    (rest : list (string * updateEvent)) (t : trace) :
  range_RefUpdates env d ((k, ev) :: rest) t =
    match processUpdateEvent env d ev t with
    | (Some e, t') => (Some e, t')
    | (None, t') => range_RefUpdates env d rest t'
    end.
Proof.
  cbn [range_RefUpdates]. unfold bind, ret.
  by destruct (processUpdateEvent env d ev t) as [[e|] t'].
Qed.

(** A prefix that went through without an error hands its trace to the
    rest of the loop. *)
Lemma range_RefUpdates_app (d : data) (pre rest : list (string * updateEvent))
    (t t1 : trace) :
  range_RefUpdates env d pre t = (None, t1) ->
  range_RefUpdates env d (pre ++ rest) t = range_RefUpdates env d rest t1.
Proof.
  revert t. induction pre as [|[k ev] pre IH]; intros t.
  - cbn. unfold ret. by intros [= <-].
  - rewrite <- app_comm_cons, !range_RefUpdates_cons.
    destruct (processUpdateEvent env d ev t) as [[e|] t']; [done|]. apply IH.
Qed.

Lemma processData_appends (d : data) (order : list (string * updateEvent))
    (t : trace) :
  exists l, (processData env d order t).2 = t ++ l /\ decisions l = [].
Proof.
  unfold processData. revert t.
  induction order as [|[k ev] order IH]; intros t.
  - exists []. by rewrite app_nil_r.
  - rewrite range_RefUpdates_cons.
    destruct (processUpdateEvent_appends d ev t) as (l & Hl & Hd).
    destruct (processUpdateEvent env d ev t) as [[e|] t']; cbn in Hl; subst t'.
    + by exists l.
    + destruct (IH (t ++ l)) as (l' & -> & Hd').
      exists (l ++ l'). by rewrite app_assoc, decisions_app, Hd, Hd'.
Qed.

End Mapper.

(** ** Envelope processing *)

(** C1: whatever the order in which the ref updates of an envelope are
    visited, once the delivery for one of them fails (the ref updates
    before it having gone through), [processData] returns that very error
    and the trace is the one at the failure: nothing is mapped, encoded or
    sent for the ref updates that come after it. *)
Theorem processData_fail_fast (env : Env) (d : data)
    (order pre post : list (string * updateEvent)) (k : string) (ev : updateEvent)
    (t t1 t2 : trace) (e : error) :
  iteration (RefUpdates (RefUpdateEvent d)) order ->
  order = pre ++ (k, ev) :: post ->
  processData env d pre t = (None, t1) ->
  processUpdateEvent env d ev t1 = (Some e, t2) ->
  processData env d order t = (Some e, t2).
Proof.
  intros _ -> Hpre Hev. unfold processData in *.
  rewrite (range_RefUpdates_app env d pre _ t t1 Hpre).
  by rewrite range_RefUpdates_cons, Hev.
Qed.

Lemma processData_fail_fast_witness :
  let env := Sample.env Sample.hook 1 in
  let order := [("x", Sample.main_push); ("y", Sample.dev_push); ("z", Sample.tag_push)] in
  (processData env Sample.three order []).1 = Some (Errorf "response not ok") /\
  map Body (sent_requests (processData env Sample.three order []).2) =
    ["projects/p1/repos/r1:refs/heads/main"; "projects/p1/repos/r1:refs/heads/dev"].
Proof.
  intros env order.
  pose (t1 := (processData env Sample.three [("x", Sample.main_push)] []).2).
  pose (t2 := (processUpdateEvent env Sample.three Sample.dev_push t1).2).
  rewrite (processData_fail_fast env Sample.three order
             [("x", Sample.main_push)] [("z", Sample.tag_push)]
             "y" Sample.dev_push [] t1 t2 (Errorf "response not ok")).
  - split; vm_compute; reflexivity.
  - unfold iteration. vm_compute entries.
    apply (Permutation_cons_append
             [("y", Sample.dev_push); ("z", Sample.tag_push)] ("x", Sample.main_push)).
  - reflexivity.
  - vm_compute. reflexivity.
  - vm_compute. reflexivity.
Defined.

(** The only error [processUpdateEvent] can return is the one of the
    delivery it attempted. *)
Lemma processUpdateEvent_error (env : Env) (d : data) (ev : updateEvent)
    (t t' : trace) (e : error) :
  processUpdateEvent env d ev t = (Some e, t') ->
  exists message, sendSlackMessage env message t = (Some e, t').
Proof.
  intros H. destruct (processUpdateEvent_cases env d ev t) as [E|[m E]].
  - congruence.
  - exists m. congruence.
Qed.

(** C10: an envelope whose map of ref updates is nil or empty is processed
    without an error and without any effect: the loop body never runs. *)
Theorem processData_no_updates (env : Env) (d : data)
    (order : list (string * updateEvent)) (t : trace) :
  RefUpdates (RefUpdateEvent d) = None \/ RefUpdates (RefUpdateEvent d) = Some ∅ ->
  iteration (RefUpdates (RefUpdateEvent d)) order ->
  order = [] /\ processData env d order t = (None, t).
Proof.
  unfold iteration, entries. intros [-> | ->] H; cbn in H;
    rewrite map_to_list_empty in H; apply Permutation_nil_r in H; by subst.
Qed.

Lemma processData_no_updates_witness :
  processData (Sample.env Sample.hook 0)
    (Sample.envelope "projects/p1/repos/r1" None) [] [] = (None, []).
Proof.
  apply (processData_no_updates (Sample.env Sample.hook 0)
           (Sample.envelope "projects/p1/repos/r1" None) [] []).
  - left. reflexivity.
  - unfold iteration. reflexivity.
Defined.

(** ** Delivery *)

(** C9: with no webhook configured, [sendSlackMessage] returns nil and
    leaves the trace as it was: the message is neither encoded nor sent,
    whatever it holds. *)
Theorem sendSlackMessage_unconfigured (env : Env) (message : slackMsg) (t : trace) :
  slackURL env = "" -> sendSlackMessage env message t = (None, t).
Proof. apply sendSlackMessage_off. Qed.

Lemma sendSlackMessage_unconfigured_witness :
  sendSlackMessage (Sample.env "" 0)
    {| Msg.Text := "hello"; Msg.Attachments := [] |} [] = (None, []).
Proof.
  apply (sendSlackMessage_unconfigured (Sample.env "" 0)
           {| Msg.Text := "hello"; Msg.Attachments := [] |} []).
  reflexivity.
Defined.





(** ** The pull adapter *)

(** C3, as the code has it: the callback calls [msg.Ack] exactly once on
    every path, as its last action (it is deferred).  When the payload does
    not decode, that call is all it does; when processing succeeds, it
    follows the effects of processing; when processing fails, [msg.Nack] is
    called first and the deferred [msg.Ack] still follows it.  So no
    message is left without a call, the first call is [Ack] on a decoding
    failure and on success and [Nack] on a processing failure, and the
    failure path issues both calls. *)
Theorem startPull_callback_calls (env : Env) (msgData : string)
    (order : list (string * updateEvent)) (t : trace) :
  exists l,
    (startPull_callback env msgData order t).2 = t ++ l /\
    decisions l =
      match json_Unmarshal env msgData with
      | Err _ => [Acked]
      | Ok d =>
          match (processData env d order t).1 with
          | Some _ => [Nacked; Acked]
          | None => [Acked]
          end
      end /\
    last l = Some Acked /\
    (forall e, json_Unmarshal env msgData = Err e -> l = [Acked]) /\
    (forall d, json_Unmarshal env msgData = Ok d ->
       exists l0,
         (processData env d order t).2 = t ++ l0 /\ decisions l0 = [] /\
         l = l0 ++ match (processData env d order t).1 with
                   | Some _ => [Nacked; Acked]
                   | None => [Acked]
                   end).
Proof.
  unfold startPull_callback, defer, emit, bind, ret.
  destruct (json_Unmarshal env msgData) as [d|e].
  - destruct (processData_appends env d order t) as (l0 & Hl & Hd).
    destruct (processData env d order t) as [[e|] t'] eqn:Hr; cbn in Hl; subst t'; cbn.
    + exists (l0 ++ [Nacked; Acked]).
      rewrite <- !app_assoc, decisions_app, Hd. cbn.
      repeat split; [|done|].
      * by rewrite (last_app_cons l0 [Acked] Nacked).
      * intros d' Heq. assert (d' = d) as -> by congruence.
        rewrite Hr. by exists l0.
    + exists (l0 ++ [Acked]).
      rewrite <- !app_assoc, decisions_app, Hd, last_snoc. cbn.
      repeat split; [done|].
      intros d' Heq. assert (d' = d) as -> by congruence.
      rewrite Hr. by exists l0.
  - exists [Acked]. cbn. repeat split; done.
Qed.

Lemma startPull_callback_calls_witness :
  (startPull_callback (Sample.env Sample.hook 1) "malformed" [] []).2 = [Acked] /\
  exists l,
    (startPull_callback (Sample.env Sample.hook 1) "one" [("x", Sample.main_push)] []).2
      = [] ++ l /\ decisions l = [Acked].
Proof.
  split.
  - destruct (startPull_callback_calls (Sample.env Sample.hook 1) "malformed" [] [])
      as (l & Hl & _ & _ & Herr & _).
    rewrite Hl, (Herr (Errorf "invalid character")); reflexivity.
  - destruct (startPull_callback_calls (Sample.env Sample.hook 1) "one"
                [("x", Sample.main_push)] []) as (l & Hl & Hd & _).
    exists l. split; [exact Hl|]. rewrite Hd. reflexivity.
Defined.

(** C3 fails where processing fails: for a decodable envelope whose one
    delivery is answered with status 500, the callback calls [msg.Nack] and
    then [msg.Ack] on the same message. *)
Lemma startPull_callback_nack_and_ack :
  let env := Sample.env Sample.hook 0 in
  let order := [("x", Sample.main_push)] in
  json_Unmarshal env "one" = Ok Sample.one /\
  iteration (RefUpdates (RefUpdateEvent Sample.one)) order /\
  (processData env Sample.one order []).1 = Some (Errorf "response not ok") /\
  decisions (startPull_callback env "one" order []).2 = [Nacked; Acked].
Proof.
  cbn zeta. split; [reflexivity|]. split.
  - unfold iteration. vm_compute entries. reflexivity.
  - split; vm_compute; reflexivity.
Qed.

(** ** The classification table *)

Lemma updateTypeColor_unlisted (s : string) :
  s <> "CREATE" -> s <> "UPDATE_FAST_FORWARD" ->
  s <> "UPDATE_NON_FAST_FORWARD" -> s <> "DELETE" ->
  updateTypeColor !! s = None.
Proof.
  intros H1 H2 H3 H4. unfold updateTypeColor. cbn [list_to_map foldr uncurry].
  by rewrite !lookup_insert_ne, lookup_empty.
Qed.

Lemma updateTypeColor_documented (s c : string) :
  updateTypeColor !! s = Some c <-> (s, c) ∈ documented_colors.
Proof.
  unfold documented_colors. split.
  - destruct (decide (s = "CREATE")) as [->|H1].
    { intros [= <-]. set_solver. }
    destruct (decide (s = "UPDATE_FAST_FORWARD")) as [->|H2].
    { intros [= <-]. set_solver. }
    destruct (decide (s = "UPDATE_NON_FAST_FORWARD")) as [->|H3].
    { intros [= <-]. set_solver. }
    destruct (decide (s = "DELETE")) as [->|H4].
    { intros [= <-]. set_solver. }
    by rewrite updateTypeColor_unlisted.
  - rewrite !elem_of_cons, elem_of_nil.
    intros [[= -> ->]|[[= -> ->]|[[= -> ->]|[[= -> ->]|[]]]]]; reflexivity.
Qed.

(** Indexing the Go map: the listed color, or the empty string. *)
Lemma updateTypeColor_index (s : string) :
  updateTypeColor !!! s = default "" (updateTypeColor !! s).
Proof. rewrite lookup_total_alt. reflexivity. Qed.

Lemma documented_colors_nonempty (s c : string) :
  (s, c) ∈ documented_colors -> c <> "".
Proof.
  unfold documented_colors. rewrite !elem_of_cons, elem_of_nil.
  intros [[= -> ->]|[[= -> ->]|[[= -> ->]|[[= -> ->]|[]]]]]; discriminate.
Qed.

(** C4: the lookup of [processUpdateEvent] is the documented table.  A
    listed classification indexes to its listed color, and the
    notification built for it (when the resource name passes the segment
    test, which is a separate gate) carries that color; any other
    classification, the empty one included, makes [processUpdateEvent]
    return nil without encoding or sending anything. *)
Theorem updateTypeColor_table (env : Env) (d : data) (ev : updateEvent) (t : trace) :
  (forall s c, updateTypeColor !! s = Some c <-> (s, c) ∈ documented_colors) /\
  (forall c, (UpdateType ev, c) ∈ documented_colors ->
     updateTypeColor !!! UpdateType ev = c /\
     (length (strings.SplitN (Name d) "/" 4) = 4%nat ->
      exists a : slackAttachment,
        processUpdateEvent env d ev t =
          sendSlackMessage env {| Msg.Text := ""; Msg.Attachments := [a] |} t /\
        Attachment.Color a = c)) /\
  ((forall c, (UpdateType ev, c) ∉ documented_colors) ->
     updateTypeColor !!! UpdateType ev = "" /\
     processUpdateEvent env d ev t = (None, t)).
Proof.
  split; [apply updateTypeColor_documented|]. split.
  - intros c Hc.
    assert (updateTypeColor !!! UpdateType ev = c) as Hi.
    { apply updateTypeColor_documented in Hc. by rewrite updateTypeColor_index, Hc. }
    split; [done|]. intros Hn.
    destruct (processUpdateEvent_sends env d ev) as (a & Hs & _ & Ha & _); [|done|].
    { rewrite Hi. by eapply documented_colors_nonempty. }
    exists a. split; [apply Hs|congruence].
  - intros Hno.
    assert (updateTypeColor !!! UpdateType ev = "") as Hi.
    { rewrite updateTypeColor_index.
      destruct (updateTypeColor !! UpdateType ev) as [c|] eqn:E; [|done].
      apply updateTypeColor_documented in E. by destruct (Hno c). }
    split; [done|]. by apply processUpdateEvent_unlisted.
Qed.

Lemma updateTypeColor_table_witness :
  (exists a : slackAttachment,
     processUpdateEvent (Sample.env Sample.hook 1) Sample.one Sample.main_push [] =
       sendSlackMessage (Sample.env Sample.hook 1)
         {| Msg.Text := ""; Msg.Attachments := [a] |} [] /\
     Attachment.Color a = "#2e77ff") /\
  processUpdateEvent (Sample.env Sample.hook 1) Sample.one Sample.unknown_push [] = (None, []).
Proof.
  split.
  - apply (updateTypeColor_table (Sample.env Sample.hook 1) Sample.one Sample.main_push []).
    + unfold documented_colors. rewrite elem_of_cons. left. reflexivity.
    + reflexivity.
  - apply (updateTypeColor_table (Sample.env Sample.hook 1) Sample.one
             Sample.unknown_push []).
    intros c. unfold documented_colors. cbn [UpdateType Sample.unknown_push].
    rewrite !elem_of_cons, elem_of_nil.
    intros [[=]|[[=]|[[=]|[[=]|[]]]]].
Defined.

(** ** The formatter *)

(** [%s] copies its operand byte for byte: nothing is escaped, and a
    percent sign inside an operand is not read as a verb. *)
Lemma Sprintf_fallback (name ref : string) :
  fmt.Sprintf "%s:%s" [name; ref] = name +:+ ":" +:+ ref.
Proof.
  cbn [fmt.Sprintf]. by rewrite append_empty_r.
Qed.

Lemma Sprintf_commitURL (projectID repoName newID : string) :
  fmt.Sprintf "https://source.cloud.google.com/%s/%s/+/%s" [projectID; repoName; newID]
  = "https://source.cloud.google.com/" +:+ projectID +:+ "/" +:+ repoName +:+ "/+/" +:+ newID.
Proof.
  cbn [fmt.Sprintf]. by rewrite append_empty_r.
Qed.

(** The link of the notification, from the parts of the split name. *)
Lemma processUpdateEvent_link (env : Env) (d : data) (ev : updateEvent)
    (x0 projectID x2 repoName : string) :
  updateTypeColor !!! UpdateType ev <> "" ->
  strings.SplitN (Name d) "/" 4 = [x0; projectID; x2; repoName] ->
  exists a : slackAttachment,
    (forall t, processUpdateEvent env d ev t =
               sendSlackMessage env {| Msg.Text := ""; Msg.Attachments := [a] |} t) /\
    Attachment.TitleLink a =
      "https://source.cloud.google.com/" +:+ projectID +:+ "/" +:+ repoName
        +:+ "/+/" +:+ NewID ev.
Proof.
  intros Hc Hx.
  destruct (processUpdateEvent_sends env d ev Hc) as (a & Hs & _ & _ & _ & Hln & _).
  { by rewrite Hx. }
  exists a. split; [done|]. by rewrite Hln, Hx, Sprintf_commitURL.
Qed.

(** C5: for a ref update that is not skipped, [processUpdateEvent] hands
    [sendSlackMessage] a message with exactly one attachment: fallback
    "name:ref", title "Cloud Repo" linked to the commit URL, the author
    email as author name, and the five fields Repository, Branch, Email,
    Update Type (the classification as received) and Commit SHA, in this
    order. *)
Theorem processUpdateEvent_message (env : Env) (d : data) (ev : updateEvent) :
  updateTypeColor !!! UpdateType ev <> "" ->
  length (strings.SplitN (Name d) "/" 4) = 4%nat ->
  exists a : slackAttachment,
    (forall t, processUpdateEvent env d ev t =
               sendSlackMessage env {| Msg.Text := ""; Msg.Attachments := [a] |} t) /\
    Attachment.Fallback a = Name d +:+ ":" +:+ RefName ev /\
    Attachment.Title a = "Cloud Repo" /\
    Attachment.TitleLink a =
      "https://source.cloud.google.com/" +:+ nth 1 (strings.SplitN (Name d) "/" 4) ""
        +:+ "/" +:+ nth 3 (strings.SplitN (Name d) "/" 4) "" +:+ "/+/" +:+ NewID ev /\
    Attachment.AuthorName a = Email (RefUpdateEvent d) /\
    map (fun f => (Field.Title f, Field.Value f)) (Attachment.Fields a) =
      [ ("Repository", Name d);
        ("Branch", RefName ev);
        ("Email", Email (RefUpdateEvent d));
        ("Update Type", UpdateType ev);
        ("Commit SHA", NewID ev) ].
Proof.
  intros Hc Hn.
  destruct (processUpdateEvent_sends env d ev Hc Hn)
    as (a & Hs & Hfb & _ & Hti & Hln & Han & _ & Hf).
  exists a. rewrite Hfb, Hti, Hln, Han, Hf, Sprintf_fallback, Sprintf_commitURL.
  repeat split; done.
Qed.

Lemma processUpdateEvent_message_witness :
  exists a : slackAttachment,
    (forall t, processUpdateEvent (Sample.env Sample.hook 1) Sample.one Sample.main_push t =
               sendSlackMessage (Sample.env Sample.hook 1)
                 {| Msg.Text := ""; Msg.Attachments := [a] |} t) /\
    Attachment.Fallback a = "projects/p1/repos/r1:refs/heads/main" /\
    map (fun f => (Field.Title f, Field.Value f)) (Attachment.Fields a) =
      [ ("Repository", "projects/p1/repos/r1");
        ("Branch", "refs/heads/main");
        ("Email", "a@b.com");
        ("Update Type", "CREATE");
        ("Commit SHA", "abc123") ].
Proof.
  destruct (processUpdateEvent_message (Sample.env Sample.hook 1) Sample.one
              Sample.main_push) as (a & Hs & Hfb & _ & _ & _ & Hf).
  - discriminate.
  - reflexivity.
  - exists a. split; [exact Hs|]. split; [exact Hfb|exact Hf].
Defined.

(** C6: the commit URL is the three operands copied, unescaped, between
    the fixed pieces of the format; [processUpdateEvent] takes the project
    id and the repository name from places 1 and 3 of the split name, and
    the link of the notification for "projects/p1/repos/r1" and "abc123" is
    "https://source.cloud.google.com/p1/r1/+/abc123". *)
Theorem commitURL_format (env : Env) (d : data) (ev : updateEvent) :
  (forall projectID repoName newID,
     fmt.Sprintf "https://source.cloud.google.com/%s/%s/+/%s" [projectID; repoName; newID]
     = "https://source.cloud.google.com/" +:+ projectID +:+ "/" +:+ repoName
         +:+ "/+/" +:+ newID) /\
  (forall x0 projectID x2 repoName,
     updateTypeColor !!! UpdateType ev <> "" ->
     strings.SplitN (Name d) "/" 4 = [x0; projectID; x2; repoName] ->
     exists a : slackAttachment,
       (forall t, processUpdateEvent env d ev t =
                  sendSlackMessage env {| Msg.Text := ""; Msg.Attachments := [a] |} t) /\
       Attachment.TitleLink a =
         "https://source.cloud.google.com/" +:+ projectID +:+ "/" +:+ repoName
           +:+ "/+/" +:+ NewID ev) /\
  (updateTypeColor !!! UpdateType ev <> "" ->
   Name d = "projects/p1/repos/r1" -> NewID ev = "abc123" ->
   exists a : slackAttachment,
     (forall t, processUpdateEvent env d ev t =
                sendSlackMessage env {| Msg.Text := ""; Msg.Attachments := [a] |} t) /\
     Attachment.TitleLink a = "https://source.cloud.google.com/p1/r1/+/abc123").
Proof.
  split; [apply Sprintf_commitURL|].
  split; [intros x0 p x2 r; apply processUpdateEvent_link|].
  intros Hc Hname Hid.
  destruct (processUpdateEvent_link env d ev "projects" "p1" "repos" "r1" Hc)
    as (a & Hs & Hln).
  { rewrite Hname. reflexivity. }
  exists a. split; [done|]. rewrite Hln, Hid. reflexivity.
Qed.

Lemma commitURL_format_witness :
  exists a : slackAttachment,
    (forall t, processUpdateEvent (Sample.env Sample.hook 1) Sample.one Sample.main_push t =
               sendSlackMessage (Sample.env Sample.hook 1)
                 {| Msg.Text := ""; Msg.Attachments := [a] |} t) /\
    Attachment.TitleLink a = "https://source.cloud.google.com/p1/r1/+/abc123".
Proof.
  apply (commitURL_format (Sample.env Sample.hook 1) Sample.one Sample.main_push).
  - discriminate.
  - reflexivity.
  - reflexivity.
Defined.

(** ** The resource name *)

(** [SplitN(name, "/", 4)] has four parts exactly when the name has four
    segments or more. *)
Lemma SplitN_4_length (name : string) :
  length (strings.SplitN name "/" 4) = 4%nat <->
  (4 <= length (strings.Split name "/"))%nat.
Proof.
  rewrite (length_SplitN_Split "/" name 4) by lia.
  change (Z.to_nat 4) with 4%nat. lia.
Qed.

(** C2, as the code has it: a resource name with fewer than four segments
    makes [processUpdateEvent] return nil without encoding or sending
    anything.  A name with four segments or more is not skipped: with a
    listed classification a notification is handed to the delivery client,
    and for a name a/b/c/r the project id is b and the repository name is
    all of r, the text after the third slash, further slashes included. *)
Theorem processUpdateEvent_name_segments (env : Env) (d : data) (ev : updateEvent) :
  ((length (strings.Split (Name d) "/") < 4)%nat ->
   forall t, processUpdateEvent env d ev t = (None, t)) /\
  ((4 <= length (strings.Split (Name d) "/"))%nat ->
   updateTypeColor !!! UpdateType ev <> "" ->
   exists a : slackAttachment,
     forall t, processUpdateEvent env d ev t =
               sendSlackMessage env {| Msg.Text := ""; Msg.Attachments := [a] |} t) /\
  (forall a b c r,
     strings.Count a "/" = 0%nat -> strings.Count b "/" = 0%nat ->
     strings.Count c "/" = 0%nat ->
     Name d = a +:+ "/" +:+ b +:+ "/" +:+ c +:+ "/" +:+ r ->
     updateTypeColor !!! UpdateType ev <> "" ->
     exists att : slackAttachment,
       (forall t, processUpdateEvent env d ev t =
                  sendSlackMessage env {| Msg.Text := ""; Msg.Attachments := [att] |} t) /\
       Attachment.TitleLink att =
         "https://source.cloud.google.com/" +:+ b +:+ "/" +:+ r +:+ "/+/" +:+ NewID ev).
Proof.
  split; [|split].
  - intros Hlt t. apply processUpdateEvent_short.
    rewrite SplitN_4_length. lia.
  - intros Hge Hc. apply SplitN_4_length in Hge.
    destruct (processUpdateEvent_sends env d ev Hc Hge) as (a & Hs & _). eauto.
  - intros a b c r Ha Hb Hcc Hname Hc.
    apply (processUpdateEvent_link env d ev a b c r); [done|].
    rewrite Hname. by apply SplitN_4_parts.
Qed.

Lemma processUpdateEvent_name_segments_witness :
  processUpdateEvent (Sample.env Sample.hook 1)
    (Sample.envelope "projects/p1/repos" None) Sample.main_push [] = (None, []) /\
  exists att : slackAttachment,
    (forall t, processUpdateEvent (Sample.env Sample.hook 1)
                 (Sample.envelope "projects/p1/repos/group/r1" None) Sample.main_push t =
               sendSlackMessage (Sample.env Sample.hook 1)
                 {| Msg.Text := ""; Msg.Attachments := [att] |} t) /\
    Attachment.TitleLink att = "https://source.cloud.google.com/p1/group/r1/+/abc123".
Proof.
  split.
  - apply (processUpdateEvent_name_segments (Sample.env Sample.hook 1)
             (Sample.envelope "projects/p1/repos" None) Sample.main_push).
    vm_compute. lia.
  - apply (processUpdateEvent_name_segments (Sample.env Sample.hook 1)
             (Sample.envelope "projects/p1/repos/group/r1" None) Sample.main_push
           ) with (a := "projects") (b := "p1") (c := "repos") (r := "group/r1");
      [reflexivity|reflexivity|reflexivity|reflexivity|discriminate].
Defined.

(** C2 fails on a name with five segments: for "projects/p1/repos/r1/extra"
    and a CREATE, [processUpdateEvent] does not skip; it posts a
    notification for the repository "r1/extra". *)
Lemma processUpdateEvent_five_segments :
  let d := Sample.envelope "projects/p1/repos/r1/extra" None in
  let run := processUpdateEvent (Sample.env Sample.hook 1) d Sample.main_push [] in
  length (strings.Split (Name d) "/") = 5%nat /\
  run <> (None, []) /\
  map Body (sent_requests run.2) = ["projects/p1/repos/r1/extra:refs/heads/main"] /\
  exists att rest,
    run.2 = Encoded {| Msg.Text := ""; Msg.Attachments := [att] |} :: rest /\
    Attachment.TitleLink att = "https://source.cloud.google.com/p1/r1/extra/+/abc123".
Proof.
  cbn zeta. split; [reflexivity|]. split; [by vm_compute|].
  split; [reflexivity|]. eexists _, _. split; vm_compute; reflexivity.
Qed.

(** ** The avatar URL *)

Lemma length_le_bytes (n : nat) (x : Z) : length (md5.le_bytes n x) = n.
Proof. unfold md5.le_bytes. by rewrite length_map, length_seq. Qed.

Lemma le_bytes_range (n : nat) (x : Z) :
  Forall (fun b => 0 <= b < 256) (md5.le_bytes n x).
Proof.
  unfold md5.le_bytes. apply Forall_map, Forall_forall. intros k _. cbn beta.
  change 255 with (Z.ones 8). rewrite Z.land_ones by lia.
  apply Z.mod_pos_bound. lia.
Qed.

(** The checksum is sixteen bytes, 128 bits, whatever the input. *)
Lemma length_Sum (data : string) : length (md5.Sum data) = 16%nat.
Proof.
  unfold md5.Sum.
  destruct (fold_left _ _ _) as [[[a b] c] d].
  by rewrite !length_app, !length_le_bytes.
Qed.

Lemma Sum_range (data : string) : Forall (fun b => 0 <= b < 256) (md5.Sum data).
Proof.
  unfold md5.Sum.
  destruct (fold_left _ _ _) as [[[a b] c] d].
  rewrite !Forall_app. repeat split; apply le_bytes_range.
Qed.

Lemma length_EncodeToString (src : list Z) :
  String.length (hex.EncodeToString src) = (2 * length src)%nat.
Proof.
  induction src as [|v src IH]; [reflexivity|].
  cbn [hex.EncodeToString String.length length]. rewrite IH. lia.
Qed.

Lemma digit_lowercase (v : Z) : hex.digit v ∈ hex.hextable.
Proof.
  unfold hex.digit.
  destruct (nth_in_or_default (Z.to_nat v) hex.hextable "0"%char) as [H| ->].
  - by apply list_elem_of_In.
  - vm_compute. apply list_elem_of_here.
Qed.

(** Only the sixteen digits 0-9 and a-f are written. *)
Lemma EncodeToString_lowercase (src : list Z) :
  Forall (fun c => c ∈ hex.hextable) (list_ascii_of_string (hex.EncodeToString src)).
Proof.
  induction src as [|v src IH]; [constructor|].
  cbn [hex.EncodeToString list_ascii_of_string].
  constructor; [apply digit_lowercase|].
  constructor; [apply digit_lowercase|exact IH].
Qed.

(** C7, as the code has it: the avatar URL of the empty email is empty;
    that of any other email is the fixed prefix followed by the 32
    lowercase hexadecimal digits of the MD5 checksum (sixteen bytes) of the
    email exactly as received, so it is not empty and depends on nothing
    but the bytes of the email.  The email is not trimmed before it is
    hashed. *)
Theorem gravatarURL_digest (email : string) :
  gravatarURL "" = "" /\
  (email <> "" ->
   gravatarURL email = "http://gravatar.com/avatar/" +:+ hex.EncodeToString (md5.Sum email) /\
   gravatarURL email <> "" /\
   length (md5.Sum email) = 16%nat /\
   Forall (fun b => 0 <= b < 256) (md5.Sum email) /\
   String.length (hex.EncodeToString (md5.Sum email)) = 32%nat /\
   Forall (fun c => c ∈ hex.hextable)
          (list_ascii_of_string (hex.EncodeToString (md5.Sum email)))).
Proof.
  split; [reflexivity|]. intros Hne.
  assert (gravatarURL email =
          "http://gravatar.com/avatar/" +:+ hex.EncodeToString (md5.Sum email)) as Hg.
  { unfold gravatarURL. by destruct (String.eqb_spec email ""). }
  split; [done|]. split.
  { rewrite Hg. discriminate. }
  split; [apply length_Sum|]. split; [apply Sum_range|]. split.
  - by rewrite length_EncodeToString, length_Sum.
  - apply EncodeToString_lowercase.
Qed.

Lemma gravatarURL_digest_witness :
  gravatarURL "a@b.com" =
    "http://gravatar.com/avatar/" +:+ hex.EncodeToString (md5.Sum "a@b.com") /\
  hex.EncodeToString (md5.Sum "a@b.com") = "357a20e8c56e69d6f9734d23ef9517e8".
Proof.
  split.
  - apply (gravatarURL_digest "a@b.com"). discriminate.
  - vm_compute. reflexivity.
Defined.

(** C7 fails on surrounding whitespace: an email and the same email after
    a space have different avatar URLs. *)
Lemma gravatarURL_not_trimmed :
  gravatarURL " a@b.com" = "http://gravatar.com/avatar/23a1f9293c57b7c9df64939fb3743c6f" /\
  gravatarURL "a@b.com" = "http://gravatar.com/avatar/357a20e8c56e69d6f9734d23ef9517e8" /\
  gravatarURL " a@b.com" <> gravatarURL "a@b.com".
Proof.
  assert (gravatarURL " a@b.com" =
          "http://gravatar.com/avatar/23a1f9293c57b7c9df64939fb3743c6f") as H1
    by (vm_compute; reflexivity).
  assert (gravatarURL "a@b.com" =
          "http://gravatar.com/avatar/357a20e8c56e69d6f9734d23ef9517e8") as H2
    by (vm_compute; reflexivity).
  split; [done|]. split; [done|]. rewrite H1, H2. discriminate.
Qed.


(** ** More on envelope processing *)

Lemma processData_cons (env : Env) (d : data) (k : string) (ev : updateEvent)
    (rest : list (string * updateEvent)) (t : trace) :
  processData env d ((k, ev) :: rest) t =
    match processUpdateEvent env d ev t with
    | (Some e, t') => (Some e, t')
    | (None, t') => processData env d rest t'
    end.
Proof. apply range_RefUpdates_cons. Qed.

(** A loop whose every step skips does nothing. *)
Lemma processData_skips (env : Env) (d : data) (order : list (string * updateEvent)) :
  (forall k ev, (k, ev) ∈ order -> forall t, processUpdateEvent env d ev t = (None, t)) ->
  forall t, processData env d order t = (None, t).
Proof.
  induction order as [|[k ev] order IH]; intros H t; [reflexivity|].
  rewrite processData_cons, (H k ev) by apply list_elem_of_here.
  apply IH. intros k' ev' Hin. apply (H k' ev'). by apply list_elem_of_further.
Qed.

(** An error of [processData] is the error of one delivery: it comes from
    [sendSlackMessage] on the notification of one of the visited ref
    updates, all the ref updates before it having gone through, and only
    with a webhook configured. *)
Theorem processData_error_origin (env : Env) (d : data)
    (order : list (string * updateEvent)) (t t' : trace) (e : error) :
  processData env d order t = (Some e, t') ->
  slackURL env <> "" /\
  exists pre k ev post t1 message,
    order = pre ++ (k, ev) :: post /\
    processData env d pre t = (None, t1) /\
    processUpdateEvent env d ev t1 = (Some e, t') /\
    sendSlackMessage env message t1 = (Some e, t').
Proof.
  revert t. induction order as [|[k ev] order IH]; intros t H.
  { discriminate. }
  rewrite processData_cons in H.
  destruct (processUpdateEvent env d ev t) as [[e0|] t0] eqn:Hev.
  - injection H as -> ->.
    destruct (processUpdateEvent_error env d ev t t' e Hev) as [m Hm].
    split.
    + intros Hoff. by rewrite (sendSlackMessage_off env m t Hoff) in Hm.
    + by exists [], k, ev, order, t, m.
  - destruct (IH t0 H) as (Hurl & pre & k' & ev' & post & t1 & m & -> & Hpre & Hstep & Hm).
    split; [done|].
    exists ((k, ev) :: pre), k', ev', post, t1, m.
    repeat split; try done.
    by rewrite processData_cons, Hev.
Qed.

Lemma processData_error_origin_witness :
  slackURL (Sample.env Sample.hook 0) <> "" /\
  exists pre k ev post t1 message,
    [("x", Sample.main_push)] = pre ++ (k, ev) :: post /\
    processData (Sample.env Sample.hook 0) Sample.one pre [] = (None, t1) /\
    processUpdateEvent (Sample.env Sample.hook 0) Sample.one ev t1
      = (Some (Errorf "response not ok"),
         (processData (Sample.env Sample.hook 0) Sample.one [("x", Sample.main_push)] []).2) /\
    sendSlackMessage (Sample.env Sample.hook 0) message t1
      = (Some (Errorf "response not ok"),
         (processData (Sample.env Sample.hook 0) Sample.one [("x", Sample.main_push)] []).2).
Proof.
  apply (processData_error_origin (Sample.env Sample.hook 0) Sample.one
           [("x", Sample.main_push)] []).
  vm_compute. reflexivity.
Defined.

(** With no webhook configured, processing an envelope does nothing and
    never fails, whatever the envelope holds. *)
Theorem processData_unconfigured (env : Env) (d : data)
    (order : list (string * updateEvent)) (t : trace) :
  slackURL env = "" -> processData env d order t = (None, t).
Proof.
  intros Hoff. apply processData_skips. intros k ev _ t0.
  destruct (processUpdateEvent_cases env d ev t0) as [H|[m H]]; [done|].
  by rewrite H, sendSlackMessage_off.
Qed.

Lemma processData_unconfigured_witness :
  processData (Sample.env "" 0) Sample.three
    [("x", Sample.main_push); ("y", Sample.dev_push); ("z", Sample.tag_push)] []
  = (None, []).
Proof.
  apply (processData_unconfigured (Sample.env "" 0) Sample.three). reflexivity.
Defined.

(** An envelope with nothing to notify is processed without an error and
    without any effect: so it is when its resource name has fewer than
    four segments, and when no ref update has a listed classification. *)
Theorem processData_nothing_notifiable (env : Env) (d : data)
    (order : list (string * updateEvent)) (t : trace) :
  (length (strings.Split (Name d) "/") < 4)%nat \/
  Forall (fun x => listed x = false) order ->
  processData env d order t = (None, t).
Proof.
  intros H. apply processData_skips. intros k ev Hin t0.
  destruct H as [Hshort|Hunlisted].
  - apply processUpdateEvent_short. rewrite SplitN_4_length. lia.
  - apply processUpdateEvent_unlisted.
    rewrite Forall_forall in Hunlisted. specialize (Hunlisted (k, ev) Hin).
    unfold listed in Hunlisted. change ((k, ev).2) with ev in Hunlisted.
    apply negb_false_iff in Hunlisted. by apply String.eqb_eq.
Qed.

Lemma processData_nothing_notifiable_witness :
  processData (Sample.env Sample.hook 0) (Sample.envelope "projects/p1" None)
    [("x", Sample.main_push); ("y", Sample.dev_push)] [] = (None, []) /\
  processData (Sample.env Sample.hook 0) Sample.one
    [("x", Sample.unknown_push)] [] = (None, []).
Proof.
  split.
  - apply (processData_nothing_notifiable (Sample.env Sample.hook 0)
             (Sample.envelope "projects/p1" None)).
    left. vm_compute. lia.
  - apply (processData_nothing_notifiable (Sample.env Sample.hook 0) Sample.one).
    right. repeat constructor.
Defined.

Lemma encoded_messages_app (t l : trace) :
  encoded_messages (t ++ l) = encoded_messages t ++ encoded_messages l.
Proof.
  induction t as [|[] t IH]; cbn; rewrite ?IH; reflexivity.
Qed.

Lemma encoded_messages_Sent (l : list request) : encoded_messages (map Sent l) = [].
Proof. induction l as [|r l IH]; cbn; done. Qed.

(** A delivery that returns nil has encoded the message and sent it, in
    one to ten requests. *)
Lemma sendSlackMessage_ok (env : Env) (message : slackMsg) (t t' : trace) :
  slackURL env <> "" ->
  sendSlackMessage env message t = (None, t') ->
  exists reqs,
    t' = t ++ Encoded message :: map Sent reqs /\
    (1 <= length reqs <= 10)%nat.
Proof.
  intros Hurl H.
  destruct (sendSlackMessage_on env message t Hurl) as (err & l & Hrun & Hd).
  rewrite Hrun in H. injection H as -> <-.
  inversion Hd as [| |buf sent last r Hm Hp Hhd Hlen Hdo Hset Hv]; subst.
  exists (sent ++ [last]). split; [done|]. rewrite length_app. cbn. lia.
Qed.

(** On success every ref update with a listed classification has been
    delivered, and nothing else: the messages encoded are, one for one and
    in the order of the iteration, the notifications of the listed ref
    updates, and each of them took between one and ten requests. *)
Theorem processData_success_posts (env : Env) (d : data)
    (order : list (string * updateEvent)) (t t' : trace) :
  slackURL env <> "" ->
  length (strings.SplitN (Name d) "/" 4) = 4%nat ->
  processData env d order t = (None, t') ->
  exists l,
    t' = t ++ l /\
    Forall2
      (fun x message =>
         exists a : slackAttachment,
           message = {| Msg.Text := ""; Msg.Attachments := [a] |} /\
           forall t0, processUpdateEvent env d x.2 t0 = sendSlackMessage env message t0)
      (List.filter listed order) (encoded_messages l) /\
    (length (List.filter listed order) <= length (sent_requests l)
       <= 10 * length (List.filter listed order))%nat.
Proof.
  intros Hurl Hname. revert t.
  induction order as [|[k ev] order IH]; intros t H.
  { injection H as <-. exists []. rewrite app_nil_r. split; [done|].
    split; [constructor|cbn; lia]. }
  rewrite processData_cons in H. cbn [List.filter].
  destruct (listed (k, ev)) eqn:Hl; unfold listed in Hl;
    change ((k, ev).2) with ev in Hl.
  - apply negb_true_iff, String.eqb_neq in Hl.
    destruct (processUpdateEvent_sends env d ev Hl Hname) as (a & Hs & _).
    rewrite Hs in H.
    destruct (sendSlackMessage env _ t) as [[e|] t0] eqn:Hsend; [discriminate|].
    destruct (sendSlackMessage_ok env _ t t0 Hurl Hsend) as (reqs & -> & Hreqs).
    destruct (IH _ H) as (l & -> & Hall & Hcount).
    exists ((Encoded {| Msg.Text := ""; Msg.Attachments := [a] |} :: map Sent reqs) ++ l).
    split; [by rewrite app_assoc|].
    rewrite encoded_messages_app, sent_requests_app.
    cbn [encoded_messages sent_requests].
    rewrite encoded_messages_Sent, sent_requests_Sent, length_app.
    cbn [app length]. split; [|lia].
    constructor; [|done]. by exists a.
  - apply negb_false_iff, String.eqb_eq in Hl.
    rewrite (processUpdateEvent_unlisted env d ev t Hl) in H. by apply IH.
Qed.

Lemma processData_success_posts_witness :
  exists l,
    (processData (Sample.env Sample.hook 2) Sample.three
       [("x", Sample.main_push); ("u", Sample.unknown_push); ("y", Sample.dev_push)] []).2
      = [] ++ l /\
    length (encoded_messages l) = 2%nat.
Proof.
  destruct (processData_success_posts (Sample.env Sample.hook 2) Sample.three
              [("x", Sample.main_push); ("u", Sample.unknown_push); ("y", Sample.dev_push)]
              []
              (processData (Sample.env Sample.hook 2) Sample.three
                 [("x", Sample.main_push); ("u", Sample.unknown_push);
                  ("y", Sample.dev_push)] []).2)
    as (l & Hl & Hall & _).
  - discriminate.
  - reflexivity.
  - vm_compute. reflexivity.
  - exists l. split; [exact Hl|].
    apply Forall2_length in Hall. rewrite <- Hall. reflexivity.
Defined.

Lemma redirectBehavior_method (reqMethod : string) (resp : response)
    (m : string) (ib : bool) :
  redirectBehavior reqMethod resp = (m, true, ib) -> m = reqMethod \/ m = "GET".
Proof.
  unfold redirectBehavior.
  destruct (_ || _ || _).
  - destruct (_ || _); intros [= <- _]; auto.
  - destruct (_ || _); [|done]. intros [= <- _ _]. auto.
Qed.

(** Every request of one call of the client has the method of the first
    one or is a GET, and carries the body of the first one or none. *)
Lemma do_loop_requests (env : Env) (n : nat) (ireq req : request) (t : trace) :
  (Method req = Method ireq \/ Method req = "GET") ->
  (Body req = Body ireq \/ Body req = "") ->
  exists reqs,
    (do_loop env n ireq req t).2 = t ++ map Sent reqs /\
    (length reqs <= S n)%nat /\
    Forall (fun r => (Method r = Method ireq \/ Method r = "GET") /\
                     (Body r = Body ireq \/ Body r = "")) reqs.
Proof.
  revert req t. induction n as [|n IH]; intros req t Hmeth Hbody;
    rewrite do_loop_unfold.
  all: destruct (network env t req) as [resp|e] eqn:Hnet.
  all: try destruct (redirectBehavior (Method req) resp) as [[m [|]] ib] eqn:Hrb.
  all: try destruct (String.eqb (Location resp) "").
  all: try destruct (url_Resolve env (Target req) (Location resp)) as [u|e].
  all: try (exists [req]; cbn [map length snd];
            split; [done|]; split; [lia|];
            constructor; [split; assumption|constructor]).
  destruct (IH {| Method := m; Target := u;
                  Body := if ib then Body ireq else "" |} (t ++ [Sent req]))
    as (reqs & Htr & Hlen & Hall).
  { cbn [Method]. destruct (redirectBehavior_method _ _ _ _ Hrb) as [->| ->]; auto. }
  { cbn [Body]. destruct ib; auto. }
  exists (req :: reqs). rewrite Htr, <- app_assoc. cbn [app map length].
  split; [done|]. split; [lia|]. by constructor.
Qed.

Lemma posted_by_weaken (env : Env) (l1 l l2 : trace) (r : request) :
  posted_by env l r -> posted_by env (l1 ++ l ++ l2) r.
Proof.
  intros (Hm & [Hb|(m & Hin & He)]); (split; [done|]); [by left|right].
  exists m. split; [|done]. rewrite !elem_of_app. auto.
Qed.

Lemma sendSlackMessage_requests (env : Env) (message : slackMsg) (t : trace) :
  exists l,
    (sendSlackMessage env message t).2 = t ++ l /\
    (length (encoded_messages l) <= 1)%nat /\
    (length (sent_requests l) <= 10 * length (encoded_messages l))%nat /\
    Forall (posted_by env l) (sent_requests l).
Proof.
  destruct (String.eqb_spec (slackURL env) "") as [E|E].
  - exists []. rewrite (sendSlackMessage_off env message t E), app_nil_r.
    repeat split; [cbn; lia..|constructor].
  - destruct (sendSlackMessage_on env message t E) as (err & l & -> & Hd).
    exists l. split; [done|].
    destruct Hd as [e Hm|buf e Hm Hp|buf sent last r Hm Hp Hhd Hlen Hdo Hset];
      cbn [encoded_messages sent_requests length];
      try (repeat split; [lia..|constructor]).
    rewrite encoded_messages_Sent, sent_requests_Sent, length_app. cbn [length].
    split; [lia|]. split; [lia|].
    destruct (do_loop_requests env 9 (post env buf) (post env buf) (t ++ [Encoded message]))
      as (reqs & Htr & _ & Hall); [by left..|].
    fold (client_Do env (post env buf)) in Htr. rewrite Hdo in Htr.
    cbn [snd] in Htr. apply app_inv_head in Htr.
    apply (f_equal sent_requests) in Htr. rewrite !sent_requests_Sent in Htr.
    rewrite Htr. eapply Forall_impl; [exact Hall|].
    intros r0 [Hmeth Hbody]. split; [exact Hmeth|].
    destruct Hbody as [Hb|Hb]; [right|by left].
    exists message. split; [apply list_elem_of_here|]. by rewrite Hb.
Qed.

(** Whatever happens, processing an envelope only appends to the trace; it
    encodes at most one message per ref update and sends at most ten
    requests per encoded message; every request is a POST or, after a
    redirect, a GET, and carries no body or the encoding of a message
    encoded in the same run. *)
Theorem processData_requests (env : Env) (d : data)
    (order : list (string * updateEvent)) (t : trace) :
  exists l,
    (processData env d order t).2 = t ++ l /\
    (length (encoded_messages l) <= length order)%nat /\
    (length (sent_requests l) <= 10 * length (encoded_messages l))%nat /\
    Forall (posted_by env l) (sent_requests l).
Proof.
  revert t. induction order as [|[k ev] order IH]; intros t.
  { exists []. rewrite app_nil_r. repeat split; [cbn; lia..|constructor]. }
  rewrite processData_cons.
  assert (exists l1, (processUpdateEvent env d ev t).2 = t ++ l1 /\
                     (length (encoded_messages l1) <= 1)%nat /\
                     (length (sent_requests l1) <= 10 * length (encoded_messages l1))%nat /\
                     Forall (posted_by env l1) (sent_requests l1))
    as (l1 & Hl1 & He1 & Hn1 & Hp1).
  { destruct (processUpdateEvent_cases env d ev t) as [->|[m ->]].
    - exists []. rewrite app_nil_r. repeat split; [cbn; lia..|constructor].
    - apply sendSlackMessage_requests. }
  destruct (processUpdateEvent env d ev t) as [[e|] t0]; cbn in Hl1; subst t0.
  - exists l1. cbn [length]. repeat split; [lia|lia|done].
  - destruct (IH (t ++ l1)) as (l2 & Hl2 & He2 & Hn2 & Hp2).
    exists (l1 ++ l2).
    rewrite Hl2, app_assoc, sent_requests_app, encoded_messages_app, !length_app.
    cbn [length]. repeat split; [lia|lia|].
    apply Forall_app. split.
    + eapply Forall_impl; [exact Hp1|]. intros r Hr.
      rewrite <- (app_nil_l (l1 ++ l2)). by apply posted_by_weaken.
    + eapply Forall_impl; [exact Hp2|]. intros r Hr.
      rewrite <- (app_nil_r l2). by apply posted_by_weaken.
Qed.

(** What is sent depends on the resource name, the author email and, for
    each ref update, its ref name, classification and new commit id only:
    the url and event time of the envelope, the old commit id and the keys
    of the map never influence the run. *)
Theorem processData_reads (env : Env) (d d' : data)
    (order order' : list (string * updateEvent)) (t : trace) :
  Name d = Name d' ->
  Email (RefUpdateEvent d) = Email (RefUpdateEvent d') ->
  Forall2 (fun x y => RefName x.2 = RefName y.2 /\
                      UpdateType x.2 = UpdateType y.2 /\
                      NewID x.2 = NewID y.2) order order' ->
  processData env d order t = processData env d' order' t.
Proof.
  intros Hn He Hall. revert t.
  induction Hall as [|[k ev] [k' ev'] order order' (Hr & Hu & Hi) _ IH]; intros t.
  { reflexivity. }
  cbn in Hr, Hu, Hi. rewrite !processData_cons.
  assert (processUpdateEvent env d ev t = processUpdateEvent env d' ev' t) as ->.
  { unfold processUpdateEvent. by rewrite Hn, He, Hr, Hu, Hi. }
  destruct (processUpdateEvent env d' ev' t) as [[e|] t0]; [done|apply IH].
Qed.

Lemma processData_reads_witness :
  processData (Sample.env Sample.hook 1) Sample.one [("x", Sample.main_push)] [] =
  processData (Sample.env Sample.hook 1)
    {| Name := "projects/p1/repos/r1"; URL := "https://source.developers.google.com/p/p1/r/r1";
       EventTime := 1577836800;
       RefUpdateEvent := {| Email := "a@b.com"; RefUpdates := None |} |}
    [("refs/heads/main",
      {| RefName := "refs/heads/main"; UpdateType := "CREATE";
         OldID := "0000000"; NewID := "abc123" |})] [].
Proof.
  apply (processData_reads (Sample.env Sample.hook 1) Sample.one).
  - reflexivity.
  - reflexivity.
  - repeat constructor.
Defined.

(** ** More on the pull adapter *)

(** The three reasons for which a ref update leaves no trace. *)
Lemma processUpdateEvent_silent (env : Env) (d : data) (ev : updateEvent) (t : trace) :
  slackURL env = "" \/
  (length (strings.Split (Name d) "/") < 4)%nat \/
  updateTypeColor !!! UpdateType ev = "" ->
  processUpdateEvent env d ev t = (None, t).
Proof.
  intros [Hoff|[Hshort|Hunlisted]].
  - destruct (processUpdateEvent_cases env d ev t) as [H|[m H]]; [done|].
    by rewrite H, sendSlackMessage_off.
  - apply processUpdateEvent_short. rewrite SplitN_4_length. lia.
  - by apply processUpdateEvent_unlisted.
Qed.

Lemma processData_silent (env : Env) (d : data) (order : list (string * updateEvent)) :
  slackURL env = "" \/
  (length (strings.Split (Name d) "/") < 4)%nat \/
  Forall (fun x => listed x = false) order ->
  forall t, processData env d order t = (None, t).
Proof.
  intros H. apply processData_skips. intros k ev Hin t.
  apply processUpdateEvent_silent.
  destruct H as [H|[H|H]]; [by left|by right; left|right; right].
  rewrite Forall_forall in H. specialize (H (k, ev) Hin).
  unfold listed in H. change ((k, ev).2) with ev in H.
  apply negb_false_iff in H. by apply String.eqb_eq.
Qed.

(** A message with nothing to deliver gets one call of [Ack] and nothing
    else: so it is when the payload does not decode and, when it does, with
    no webhook configured, with a resource name of fewer than four
    segments, and with no ref update of a listed classification. *)
Theorem startPull_callback_ack_only (env : Env) (msgData : string)
    (order : list (string * updateEvent)) (t : trace) :
  (forall d, json_Unmarshal env msgData = Ok d ->
     slackURL env = "" \/
     (length (strings.Split (Name d) "/") < 4)%nat \/
     Forall (fun x => listed x = false) order) ->
  startPull_callback env msgData order t = (tt, t ++ [Acked]).
Proof.
  intros H. unfold startPull_callback, defer, emit, bind, ret.
  destruct (json_Unmarshal env msgData) as [d|e]; [|done].
  by rewrite (processData_silent env d order (H d eq_refl) t).
Qed.

Lemma startPull_callback_ack_only_witness :
  startPull_callback (Sample.env "" 0) "two"
    [("y", Sample.dev_push); ("x", Sample.main_push)] [] = (tt, [] ++ [Acked]) /\
  startPull_callback (Sample.env Sample.hook 0) "not json" [] [] = (tt, [] ++ [Acked]).
Proof.
  split.
  - apply (startPull_callback_ack_only (Sample.env "" 0) "two").
    intros d _. left. reflexivity.
  - apply (startPull_callback_ack_only (Sample.env Sample.hook 0) "not json").
    intros d Hd. vm_compute in Hd. discriminate Hd.
Defined.

(** ** The push adapter *)

(** Every push request is answered with status 204, whatever it holds and
    whatever becomes of it: a rejected request, an undecodable body and a
    failed delivery all get the same answer, the error of [processData]
    being dropped. *)
Theorem startPush_handler_no_content (penv : PushEnv) (env : Env) (r : pushRequest)
    (order : list (string * updateEvent)) (t : trace) :
  (startPush_handler penv env r order unwritten t).1
    = {| wroteHeader := true; status := 204 |} /\
  forall w, (startPush_handler penv env r order w t).1 = WriteHeader StatusNoContent w.
Proof.
  assert (forall w, (startPush_handler penv env r order w t).1
                    = WriteHeader StatusNoContent w) as H.
  { intros w. unfold startPush_handler, bind, ret.
    destruct (negb _); [done|]. destruct (negb _); [done|].
    destruct (json_Decode penv (ReqBody r)) as [msg|e]; [|done].
    destruct (String.eqb _ ""); [done|].
    destruct (json_Unmarshal env _) as [d|e]; [|done].
    by destruct (processData env d order t). }
  split; [|exact H]. by rewrite H.
Qed.

(** The push handler reaches the pipeline only for a POST whose media
    type is application/json, whose body decodes to a wrapper with a
    subscription, and whose payload decodes to an envelope; its effects are
    then those of [processData] on that envelope.  Any other request leaves
    the trace as it was. *)
Theorem startPush_handler_gate (penv : PushEnv) (env : Env) (r : pushRequest)
    (order : list (string * updateEvent)) (w : ResponseWriter) (t : trace) :
  (forall msg d,
     ReqMethod r = "POST" ->
     mime_ParseMediaType penv (ContentType r) = "application/json" ->
     json_Decode penv (ReqBody r) = Ok msg ->
     Subscription msg <> "" ->
     json_Unmarshal env (Data (Message msg)) = Ok d ->
     (startPush_handler penv env r order w t).2 = (processData env d order t).2) /\
  (ReqMethod r <> "POST" \/
   mime_ParseMediaType penv (ContentType r) <> "application/json" \/
   (exists e, json_Decode penv (ReqBody r) = Err e) \/
   (exists msg, json_Decode penv (ReqBody r) = Ok msg /\
                (Subscription msg = "" \/
                 exists e, json_Unmarshal env (Data (Message msg)) = Err e)) ->
   (startPush_handler penv env r order w t).2 = t).
Proof.
  unfold startPush_handler, bind, ret, MethodPost. split.
  - intros msg d Hm Hmt Hdec Hsub Hun.
    rewrite Hm, Hmt, Hdec, Hun. cbn [String.eqb Ascii.eqb Bool.eqb negb].
    destruct (String.eqb_spec (Subscription msg) "") as [|_]; [done|].
    by destruct (processData env d order t).
  - intros H.
    destruct (String.eqb_spec (ReqMethod r) "POST") as [Hm|Hm]; cbn [negb]; [|done].
    destruct (String.eqb_spec (mime_ParseMediaType penv (ContentType r))
                "application/json") as [Hmt|Hmt]; cbn [negb]; [|done].
    destruct (json_Decode penv (ReqBody r)) as [msg|e]; [|done].
    destruct (String.eqb_spec (Subscription msg) "") as [Hs|Hs]; [done|].
    destruct (json_Unmarshal env (Data (Message msg))) as [d|e] eqn:Hun; [|done].
    destruct H as [H|[H|[[e H]|(msg' & Hdec & [H|[e H]])]]]; try done.
    + assert (msg' = msg) as -> by congruence. done.
    + assert (msg' = msg) as -> by congruence. congruence.
Qed.

Lemma startPush_handler_gate_witness :
  let env := Sample.env Sample.hook 0 in
  (startPush_handler SamplePush.penv env (SamplePush.request "push-one")
     [("x", Sample.main_push)] unwritten []).2
    = (processData env Sample.one [("x", Sample.main_push)] []).2 /\
  (startPush_handler SamplePush.penv env (SamplePush.request "push-anonymous")
     [("x", Sample.main_push)] unwritten []).2 = [].
Proof.
  intros env. split.
  - apply (startPush_handler_gate SamplePush.penv env (SamplePush.request "push-one")
             [("x", Sample.main_push)] unwritten [])
      with (msg := {| Message := {| Data := "one"; ID := "1" |};
                      Subscription := "projects/p1/subscriptions/s1" |});
      [reflexivity|reflexivity|reflexivity|discriminate|reflexivity].
  - apply (startPush_handler_gate SamplePush.penv env
             (SamplePush.request "push-anonymous") [("x", Sample.main_push)] unwritten []).
    right. right. right.
    exists {| Message := {| Data := "one"; ID := "2" |}; Subscription := "" |}.
    split; [reflexivity|]. left. reflexivity.
Defined.

(** ** More on the resource name *)

Lemma IndexByte_split (sep : ascii) (s : string) (m : nat) :
  strings.IndexByte s sep = Some m ->
  s = strings.slice_to m s +:+ String sep (strings.slice_from (m + 1) s) /\
  strings.Count (strings.slice_to m s) sep = 0%nat.
Proof.
  revert m. induction s as [|x s IH]; intros m; cbn [strings.IndexByte]; [done|].
  destruct (Ascii.eqb_spec x sep) as [->|Hne].
  - intros [= <-]. by cbn.
  - destruct (strings.IndexByte s sep) as [k|]; [|done].
    intros [= <-]. destruct (IH k eq_refl) as [Hs Hc].
    cbn [strings.slice_to]. change (S k + 1)%nat with (S (k + 1)).
    cbn [strings.slice_from strings.Count]. rewrite append_String, <- Hs.
    split; [done|]. by destruct (Ascii.eqb_spec x sep).
Qed.

(** The four parts of a split name give the name back, and none of the
    first three holds a slash. *)
Lemma SplitN_4_inv (name x0 x1 x2 x3 : string) :
  strings.SplitN name "/" 4 = [x0; x1; x2; x3] ->
  name = x0 +:+ "/" +:+ x1 +:+ "/" +:+ x2 +:+ "/" +:+ x3 /\
  strings.Count x0 "/" = 0%nat /\ strings.Count x1 "/" = 0%nat /\
  strings.Count x2 "/" = 0%nat.
Proof.
  intros H.
  assert (strings.genSplit_loop 3 name "/" = [x0; x1; x2; x3]) as Hloop.
  { revert H. unfold strings.SplitN. cbn [Z.eqb Z.ltb Z.compare].
    destruct (4 >? Z.of_nat (String.length name) + 1) eqn:Hcap; [|done].
    intros H. apply (f_equal length) in H.
    rewrite length_genSplit_loop in H. cbn [length] in H.
    apply Z.gtb_lt in Hcap. lia. }
  clear H. cbn [strings.genSplit_loop] in Hloop.
  destruct (strings.IndexByte name "/") as [m0|] eqn:H0; [|done].
  destruct (IndexByte_split "/" name m0 H0) as [E0 C0].
  destruct (strings.IndexByte (strings.slice_from (m0 + 1) name) "/")
    as [m1|] eqn:H1; [|done].
  destruct (IndexByte_split "/" _ m1 H1) as [E1 C1].
  destruct (strings.IndexByte
              (strings.slice_from (m1 + 1) (strings.slice_from (m0 + 1) name)) "/")
    as [m2|] eqn:H2; [|done].
  destruct (IndexByte_split "/" _ m2 H2) as [E2 C2].
  injection Hloop as <- <- <- <-.
  repeat split; [|done..].
  assert (forall x, "/" +:+ x = String "/" x) as E by reflexivity.
  rewrite !E. rewrite E0 at 1. rewrite E1 at 1. by rewrite E2 at 1.
Qed.

(** Whenever a notification is built, the resource name reads
    x0/projectID/x2/repoName, where x0, the project id and x2 hold no
    slash, and the link is made of that project id and that repository
    name.  Neither x0 nor x2 is compared with anything. *)
Theorem processUpdateEvent_name_shape (env : Env) (d : data) (ev : updateEvent) :
  updateTypeColor !!! UpdateType ev <> "" ->
  length (strings.SplitN (Name d) "/" 4) = 4%nat ->
  exists x0 projectID x2 repoName (a : slackAttachment),
    Name d = x0 +:+ "/" +:+ projectID +:+ "/" +:+ x2 +:+ "/" +:+ repoName /\
    strings.Count x0 "/" = 0%nat /\ strings.Count projectID "/" = 0%nat /\
    strings.Count x2 "/" = 0%nat /\
    (forall t, processUpdateEvent env d ev t =
               sendSlackMessage env {| Msg.Text := ""; Msg.Attachments := [a] |} t) /\
    Attachment.TitleLink a =
      "https://source.cloud.google.com/" +:+ projectID +:+ "/" +:+ repoName
        +:+ "/+/" +:+ NewID ev.
Proof.
  intros Hc Hn.
  destruct (strings.SplitN (Name d) "/" 4) as [|x0 [|p [|x2 [|r [|]]]]] eqn:Hx;
    try discriminate.
  destruct (SplitN_4_inv (Name d) x0 p x2 r Hx) as (E & C0 & C1 & C2).
  destruct (processUpdateEvent_link env d ev x0 p x2 r Hc Hx) as (a & Hs & Hl).
  by exists x0, p, x2, r, a.
Qed.

Lemma processUpdateEvent_name_shape_witness :
  exists x0 projectID x2 repoName (a : slackAttachment),
    "zones/p1/x/group/r1" = x0 +:+ "/" +:+ projectID +:+ "/" +:+ x2 +:+ "/" +:+ repoName /\
    strings.Count projectID "/" = 0%nat /\
    Attachment.TitleLink a =
      "https://source.cloud.google.com/" +:+ projectID +:+ "/" +:+ repoName
        +:+ "/+/" +:+ "abc123".
Proof.
  destruct (processUpdateEvent_name_shape (Sample.env Sample.hook 1)
              (Sample.envelope "zones/p1/x/group/r1" None) Sample.main_push)
    as (x0 & p & x2 & r & a & E & _ & C & _ & _ & Hl).
  - discriminate.
  - reflexivity.
  - exists x0, p, x2, r, a. split; [exact E|]. split; [exact C|exact Hl].
Defined.

(** ** More on the formatter and on rejected messages *)

(** The author icon of a notification is the avatar URL of the author
    email: the fixed prefix and the checksum of the email, and nothing at
    all exactly when the envelope carries no email. *)
Theorem processUpdateEvent_author_icon (env : Env) (d : data) (ev : updateEvent) :
  updateTypeColor !!! UpdateType ev <> "" ->
  length (strings.SplitN (Name d) "/" 4) = 4%nat ->
  exists a : slackAttachment,
    (forall t, processUpdateEvent env d ev t =
               sendSlackMessage env {| Msg.Text := ""; Msg.Attachments := [a] |} t) /\
    (Attachment.AuthorIcon a = "" <-> Email (RefUpdateEvent d) = "") /\
    (Email (RefUpdateEvent d) <> "" ->
     Attachment.AuthorIcon a =
       "http://gravatar.com/avatar/"
         +:+ hex.EncodeToString (md5.Sum (Email (RefUpdateEvent d)))).
Proof.
  intros Hc Hn.
  destruct (processUpdateEvent_sends env d ev Hc Hn)
    as (a & Hs & _ & _ & _ & _ & _ & Hi & _).
  exists a. split; [done|]. rewrite Hi. unfold gravatarURL.
  destruct (String.eqb_spec (Email (RefUpdateEvent d)) "") as [E|E].
  - by rewrite E.
  - split; [|done]. split; [discriminate|done].
Qed.

Lemma processUpdateEvent_author_icon_witness :
  exists a : slackAttachment,
    (forall t, processUpdateEvent (Sample.env Sample.hook 1) Sample.one Sample.main_push t =
               sendSlackMessage (Sample.env Sample.hook 1)
                 {| Msg.Text := ""; Msg.Attachments := [a] |} t) /\
    Attachment.AuthorIcon a =
      "http://gravatar.com/avatar/" +:+ hex.EncodeToString (md5.Sum "a@b.com").
Proof.
  destruct (processUpdateEvent_author_icon (Sample.env Sample.hook 1) Sample.one
              Sample.main_push) as (a & Hs & _ & Hi).
  - discriminate.
  - reflexivity.
  - exists a. split; [exact Hs|]. apply Hi. discriminate.
Defined.

Lemma Nacked_in_decisions (l : trace) : Nacked ∈ l -> Nacked ∈ decisions l.
Proof.
  induction l as [|x l IH]; [done|].
  rewrite elem_of_cons. intros [<-|H]; [apply list_elem_of_here|].
  destruct x; cbn [decisions]; auto using list_elem_of_further.
Qed.

(** A message is rejected only for a failed delivery: when the callback
    calls [Nack], the payload had decoded, a webhook is configured and
    [processData] had returned an error. *)
Theorem startPull_callback_nack_origin (env : Env) (msgData : string)
    (order : list (string * updateEvent)) (t l : trace) :
  (startPull_callback env msgData order t).2 = t ++ l ->
  Nacked ∈ l ->
  slackURL env <> "" /\
  exists d e,
    json_Unmarshal env msgData = Ok d /\ (processData env d order t).1 = Some e.
Proof.
  unfold startPull_callback, defer, emit, bind, ret.
  destruct (json_Unmarshal env msgData) as [d|e0].
  - destruct (processData_appends env d order t) as (l0 & Hl0 & Hd0).
    destruct (processData env d order t) as [[e|] t0] eqn:Hrun; cbn in Hl0; subst t0.
    + intros _ _. split; [|exists d, e; by rewrite Hrun].
      intros Hoff. by rewrite (processData_silent env d order (or_introl Hoff) t) in Hrun.
    + cbn. rewrite <- app_assoc. intros <-%app_inv_head Hin.
      apply Nacked_in_decisions in Hin. rewrite decisions_app, Hd0 in Hin.
      cbn in Hin. by apply list_elem_of_singleton in Hin.
  - cbn. intros <-%app_inv_head Hin. by apply list_elem_of_singleton in Hin.
Qed.

Lemma startPull_callback_nack_origin_witness :
  slackURL (Sample.env Sample.hook 0) <> "" /\
  exists d e,
    json_Unmarshal (Sample.env Sample.hook 0) "one" = Ok d /\
    (processData (Sample.env Sample.hook 0) d [("x", Sample.main_push)] []).1 = Some e.
Proof.
  apply (startPull_callback_nack_origin (Sample.env Sample.hook 0) "one"
           [("x", Sample.main_push)] []
           (startPull_callback (Sample.env Sample.hook 0) "one"
              [("x", Sample.main_push)] []).2).
  - reflexivity.
  - vm_compute. apply list_elem_of_further, list_elem_of_further, list_elem_of_here.
Defined.
